(** * Linuwu Sense control surface: payload encoding, validation, path probing

    A shallow embedding of [tools/linuwu_sense_gui.py]: the helpers
    [parse_hex_color] and [detect_sense_fan_path], and the four button
    handlers [apply_static], [apply_effect], [apply_profile] and
    [apply_fans], together with the choice loading of [_build_power_page].

    Python [str] values are sequences of Unicode code points, so a string is
    a [list N] here; that keeps [len], slicing and the whitespace class of
    [str.strip] / [str.split] exactly as Python has them. *)

From stdpp Require Import gmap list strings.
From Stdlib Require Import ZArith Lia.
From Stdlib Require Ascii String.

(** ** Python strings *)

Abbreviation pstr := (list N).

(** A literal: the code points of an ASCII string. *)
Definition py (s : string) : pstr :=
  Ascii.N_of_ascii <$> String.list_ascii_of_string s.

Definition nl : pstr := [10%N].

Module Py.

(** [str.isspace] on one code point: the white-space table of CPython. *)
Definition isspace (c : N) : bool :=
  ((9 <=? c) && (c <=? 13) || (28 <=? c) && (c <=? 32)
   || (c =? 0x85) || (c =? 0xA0) || (c =? 0x1680)
   || (0x2000 <=? c) && (c <=? 0x200A)
   || (c =? 0x2028) || (c =? 0x2029) || (c =? 0x202F)
   || (c =? 0x205F) || (c =? 0x3000))%N.

Fixpoint lstrip (s : pstr) : pstr :=
  match s with
  | c :: s' => if isspace c then lstrip s' else s
  | [] => []
  end.

Definition rstrip (s : pstr) : pstr := rev (lstrip (rev s)).

(** [s.strip()] *)
Definition strip (s : pstr) : pstr := rstrip (lstrip s).

(** [s.startswith(p)] *)
Fixpoint startswith (p s : pstr) : bool :=
  match p, s with
  | [], _ => true
  | a :: p', b :: s' => (a =? b)%N && startswith p' s'
  | _ :: _, [] => false
  end.

(** [c in t] for a one-character [c]. *)
Definition char_in (c : N) (t : pstr) : bool := existsb (N.eqb c) t.

(** [str.lower] on the ASCII letters.  The program lowers only strings it
    has already checked to consist of ASCII hex digits. *)
Definition lower_char (c : N) : N :=
  if ((65 <=? c) && (c <=? 90))%N then (c + 32)%N else c.
Definition lower (s : pstr) : pstr := lower_char <$> s.

(** [sep.join(parts)] *)
Fixpoint join (sep : pstr) (parts : list pstr) : pstr :=
  match parts with
  | [] => []
  | [p] => p
  | p :: rest => p ++ sep ++ join sep rest
  end.

(** [s.split()] with no argument: runs of white space separate the
    tokens, and no empty token is produced.  [tok] is the token being
    scanned. *)
Fixpoint split_go (tok : pstr) (s : pstr) : list pstr :=
  match s with
  | [] => match tok with [] => [] | _ => [tok] end
  | c :: s' =>
      if isspace c
      then match tok with
           | [] => split_go [] s'
           | _ => tok :: split_go [] s'
           end
      else split_go (tok ++ [c]) s'
  end.
Definition split (s : pstr) : list pstr := split_go [] s.

(** [l * n] on lists *)
Fixpoint repeat_list {A} (l : list A) (n : nat) : list A :=
  match n with
  | O => []
  | S n' => l ++ repeat_list l n'
  end.

(** [s[i:j]] for [0 <= i <= j] *)
Definition slice (i j : nat) (s : pstr) : pstr := take (j - i) (drop i s).

(** [str(n)] for an [int]: the decimal numeral, most significant digit
    first, with a minus sign for a negative number. *)
Fixpoint digits_fuel (fuel : nat) (n : N) (acc : pstr) : pstr :=
  match fuel with
  | O => acc
  | S fuel' =>
      let acc' := (48 + n mod 10)%N :: acc in
      if (n <? 10)%N then acc' else digits_fuel fuel' (n / 10)%N acc'
  end.
Definition str_N (n : N) : pstr :=
  digits_fuel (S (N.to_nat (N.log2 n))) n [].
Definition str (z : Z) : pstr :=
  match z with
  | Z0 => str_N 0
  | Zpos p => str_N (Npos p)
  | Zneg p => 45%N :: str_N (Npos p)
  end.

(** The value of one hex digit. *)
Definition hexval (c : N) : option Z :=
  if ((48 <=? c) && (c <=? 57))%N then Some (Z.of_N c - 48)%Z
  else if ((97 <=? c) && (c <=? 102))%N then Some (Z.of_N c - 87)%Z
  else if ((65 <=? c) && (c <=? 70))%N then Some (Z.of_N c - 55)%Z
  else None.

(** [int(s, 16)] on a non-empty run of hex digits; [None] stands for the
    [ValueError] of an input outside that shape.  The program calls it on
    two-character slices of a validated colour only. *)
Fixpoint int16_go (acc : Z) (s : pstr) : option Z :=
  match s with
  | [] => Some acc
  | c :: s' =>
      match hexval c with
      | Some d => int16_go (16 * acc + d)%Z s'
      | None => None
      end
  end.
Definition int16 (s : pstr) : option Z :=
  match s with
  | [] => None
  | _ => int16_go 0%Z s
  end.

(** [os.path.join(a, b)] (posixpath) *)
Definition path_join (a b : pstr) : pstr :=
  if startswith (py "/") b then b
  else match last a with
       | None => a ++ b
       | Some c => if (c =? 47)%N then a ++ b else a ++ py "/" ++ b
       end.

End Py.

(** ** Exceptions and results *)

Inductive exn :=
| FileNotFoundError (msg : pstr)
| PermissionError (msg : pstr)
| OSError (msg : pstr)
| ValueError (msg : pstr)
| IndexError (msg : pstr).

(** [str(e)] *)
Definition exn_str (e : exn) : pstr :=
  match e with
  | FileNotFoundError m | PermissionError m | OSError m
  | ValueError m | IndexError m => m
  end.

Definition is_PermissionError (e : exn) : bool :=
  match e with PermissionError _ => true | _ => false end.

Inductive result (A : Type) :=
| Ok (a : A)
| Raise (e : exn).
Arguments Ok {A} a.
Arguments Raise {A} e.

Definition rbind {A B} (r : result A) (k : A -> result B) : result B :=
  match r with
  | Ok a => k a
  | Raise e => Raise e
  end.

(** A list comprehension whose body may raise: the first failure wins. *)
Fixpoint rmap {A B} (f : A -> result B) (l : list A) : result (list B) :=
  match l with
  | [] => Ok []
  | x :: l' =>
      rbind (f x) (fun y => rbind (rmap f l') (fun ys => Ok (y :: ys)))
  end.

(** ** [parse_hex_color] *)

Definition hex_alphabet : pstr := py "0123456789abcdefABCDEF".

Definition parse_hex_color (s : pstr) : result pstr :=
  let s := Py.strip s in
  let s := if Py.startswith (py "#") s then drop 1 s else s in
  if negb (length s =? 6)
     || existsb (fun c => negb (Py.char_in c hex_alphabet)) s
  then Raise (ValueError (py "Use RRGGBB or #RRGGBB"))
  else Ok (Py.lower s).

(** ** The machine: sysfs nodes, the I/O collaborators, the status label *)

Inductive node :=
| Dir
| File (content : pstr).

(** [StatusNotifier]: the label's text and whether it carries the
    [error] CSS class. *)
Record Label := mkLabel { text : pstr; error_class : bool }.

(** A [File] holds the text that its bytes decode to as UTF-8 (what
    [errors="ignore"] leaves of them), before any newline translation.

    [wfault p] is what writing to [p] raises, if anything, and [wkept p]
    says when: [None] if [open] itself raises, so that the file is not
    touched, and [Some n] if the exception comes after [open] has
    truncated the file, with the first [n] characters written.  [rfault p]
    is what reading [p] raises, if anything.  [open_error p] is the
    [OSError] that [open] raises when [p] cannot be opened as a file
    because it is a directory or does not exist; its text is the
    operating system's.  [wlog] records every call of [write_text], most
    recent first. *)
Record World := mkWorld {
  nodes : gmap pstr node;
  wfault : pstr -> option exn;
  wkept : pstr -> option nat;
  rfault : pstr -> option exn;
  open_error : pstr -> exn;
  wlog : list (pstr * pstr);
  label : Label;
}.

Definition set_nodes (f : gmap pstr node -> gmap pstr node) (w : World) : World :=
  mkWorld (f (nodes w)) (wfault w) (wkept w) (rfault w) (open_error w)
    (wlog w) (label w).
Definition log_write (p c : pstr) (w : World) : World :=
  mkWorld (nodes w) (wfault w) (wkept w) (rfault w) (open_error w)
    ((p, c) :: wlog w) (label w).
Definition set_label (l : Label) (w : World) : World :=
  mkWorld (nodes w) (wfault w) (wkept w) (rfault w) (open_error w)
    (wlog w) l.

(** A lone surrogate, the only kind of character of a [str] that UTF-8
    cannot encode. *)
Definition is_surrogate (c : N) : bool :=
  ((0xD800 <=? c) && (c <=? 0xDFFF))%N.

(** What a file holds after [s] was written with [encoding="utf-8"] and
    [errors="ignore"]: the characters that cannot be encoded are dropped.
    On write, text mode turns a newline into [os.linesep], which is the
    newline itself on Linux. *)
Definition encode_ignore (s : pstr) : pstr :=
  List.filter (fun c => negb (is_surrogate c)) s.

(** What text mode makes of the decoded text on reading: a carriage
    return, alone or followed by a newline, becomes one newline. *)
Fixpoint universal_newlines (s : pstr) : pstr :=
  match s with
  | [] => []
  | c :: s' =>
      if (c =? 13)%N
      then 10%N :: match s' with
                   | d :: s'' =>
                       if (d =? 10)%N then universal_newlines s''
                       else universal_newlines s'
                   | [] => []
                   end
      else c :: universal_newlines s'
  end.

(** State and exceptions. *)
Definition M (A : Type) : Type := World -> result A * World.

Definition ret {A} (a : A) : M A := fun w => (Ok a, w).
Definition raise {A} (e : exn) : M A := fun w => (Raise e, w).
Definition bind {A B} (c : M A) (k : A -> M B) : M B :=
  fun w => match c w with
           | (Ok a, w') => k a w'
           | (Raise e, w') => (Raise e, w')
           end.
Definition lift {A} (r : result A) : M A := fun w => (r, w).
Definition ask {A} (f : World -> A) : M A := fun w => (Ok (f w), w).

Notation "x <~ c ;; k" := (bind c (fun x => k))
  (at level 200, c at level 99, right associativity).
Notation "c ;;; k" := (bind c (fun _ => k))
  (at level 200, right associativity).

(** [os.path.exists] *)
Definition path_exists (w : World) (p : pstr) : bool :=
  bool_decide (is_Some (nodes w !! p)).

(** [read_text]: the whole file in text mode, stripped. *)
Definition read_text (w : World) (path : pstr) : result pstr :=
  match rfault w path with
  | Some e => Raise e
  | None =>
      match nodes w !! path with
      | Some (File c) => Ok (Py.strip (universal_newlines c))
      | Some Dir | None => Raise (open_error w path)
      end
  end.

(** The machine after a call of [write_text] that raised: the call is
    logged; when the exception came from [open] nothing else has changed,
    when it came later the file, created if it was missing, holds what had
    been written of the encoded content. *)
Definition refused (path content : pstr) (w : World) : World :=
  match wkept w path, nodes w !! path with
  | Some n, (None | Some (File _)) =>
      set_nodes (insert path (File (take n (encode_ignore content))))
        (log_write path content w)
  | _, _ => log_write path content w
  end.

(** [write_text]: [open(path, "w")] creates or truncates the file, and on
    success the file holds the encoded [content]. *)
Definition write_text (path content : pstr) : M unit :=
  fun w =>
    match wfault w path with
    | Some e => (Raise e, refused path content w)
    | None =>
        match nodes w !! path with
        | Some Dir => (Raise (open_error w path), log_write path content w)
        | Some (File _) | None =>
            (Ok tt,
             set_nodes (insert path (File (encode_ignore content)))
               (log_write path content w))
        end
    end.

Definition notifier_info (msg : pstr) : M unit :=
  fun w => (Ok tt, set_label (mkLabel msg false) w).
Definition notifier_error (msg : pstr) : M unit :=
  fun w => (Ok tt, set_label (mkLabel msg true) w).

Definition permission_message : pstr :=
  py "Permission denied: run as root to apply.".

(** The [try] / [except PermissionError] / [except Exception as e] frame
    shared by the four handlers. *)
Definition try_except (body : M unit) : M unit :=
  fun w =>
    match body w with
    | (Ok _, w') => (Ok tt, w')
    | (Raise e, w') =>
        if is_PermissionError e
        then notifier_error permission_message w'
        else notifier_error (py "Error: " ++ exn_str e) w'
    end.

(** ** The constants of [linuwuctl] *)

(** Modelled from the spec: the module [tools/linuwuctl.py] that the GUI
    imports as [ctl] is not part of the sources at hand; its constants are
    the sysfs base, the predator and nitro directories under it, the two
    keyboard files, the two platform-profile files, and the fixed table
    from effect-mode names to ids (a dict, kept in insertion order). *)
Record Ctl := mkCtl {
  SYSFS_BASE : pstr;
  SENSE_PRED : pstr;
  SENSE_NITRO : pstr;
  KB_PER_ZONE : pstr;
  KB_FOUR_MODE : pstr;
  PLATFORM_PROFILE : pstr;
  PLATFORM_PROFILE_CHOICES : pstr;
  MODE_NAME_TO_ID : list (pstr * Z);
}.

(** [d.keys()] and [d.get(k, default)] on a dict kept as an association
    list. *)
Definition dict_keys {V} (d : list (pstr * V)) : list pstr := fst <$> d.
Fixpoint dict_lookup {V} (d : list (pstr * V)) (k : pstr) : option V :=
  match d with
  | [] => None
  | (k', v) :: d' => if decide (k' = k) then Some v else dict_lookup d' k
  end.
Definition dict_get {V} (d : list (pstr * V)) (k : pstr) (dflt : V) : V :=
  default dflt (dict_lookup d k).

(** ** The widgets each handler reads *)

(** Numeric fields hold [int(row.get_value())]. *)
Record StaticForm := mkStaticForm {
  single_active : bool;
  single_color_text : pstr;
  z_entries_text : list pstr;
  bright_value : Z;
}.

Record EffectForm := mkEffectForm {
  mode_selected : nat;
  speed_value : Z;
  bright2_value : Z;
  dir_value : Z;
  color_text : pstr;
}.

(** [choices] is the list the page was built with ([load_choices] below),
    captured by the handler's closure. *)
Record PowerForm := mkPowerForm {
  choices : list pstr;
  combo_selected : nat;
}.

Record FanForm := mkFanForm {
  auto_active : bool;
  cpu_value : Z;
  gpu_value : Z;
}.

Section Handlers.

Variable ctl : Ctl.

(** *** [detect_sense_fan_path] *)
Definition detect_sense_fan_path (w : World) : option pstr :=
  let base :=
    if path_exists w (SYSFS_BASE ctl)
    then if path_exists w (SENSE_PRED ctl) then Some (SENSE_PRED ctl)
         else if path_exists w (SENSE_NITRO ctl) then Some (SENSE_NITRO ctl)
         else None
    else None in
  match base with
  | None => None
  | Some base =>
      let p := Py.path_join base (py "fan_speed") in
      if path_exists w p then Some p else None
  end.

(** *** [apply_static] *)

(** Lines 207-219: from the widgets to the payload. *)
Definition static_payload (f : StaticForm) : result pstr :=
  let brightness := bright_value f in
  rbind
    (if single_active f
     then rbind (parse_hex_color (single_color_text f)) (fun c => Ok [c])
     else rbind (rmap parse_hex_color (z_entries_text f)) (fun colors =>
            if negb (length colors =? 4)
            then Raise (ValueError (py "Provide 4 colors"))
            else Ok colors))
    (fun colors =>
       let colors :=
         if length colors =? 1 then Py.repeat_list colors 4 else colors in
       Ok (Py.join (py ",") (colors ++ [Py.str brightness]) ++ nl)).

Definition apply_static (f : StaticForm) : M unit :=
  try_except (
    ok <~ ask (fun w => path_exists w (KB_PER_ZONE ctl)) ;;
    if negb ok
    then raise (FileNotFoundError
                  (py "Missing per_zone_mode at " ++ KB_PER_ZONE ctl))
    else
      payload <~ lift (static_payload f) ;;
      write_text (KB_PER_ZONE ctl) payload ;;;
      notifier_info (py "Keyboard static colors applied")).

(** *** [apply_effect] *)

Definition mode_names : list pstr := dict_keys (MODE_NAME_TO_ID ctl).

(** Lines 274-278: the colour entry, when it is not blank. *)
Definition effect_rgb (f : EffectForm) : result (Z * Z * Z) :=
  let ctext := Py.strip (color_text f) in
  match ctext with
  | [] => Ok (0, 0, 0)%Z
  | _ =>
      rbind (parse_hex_color ctext) (fun col =>
        match Py.int16 (Py.slice 0 2 col),
              Py.int16 (Py.slice 2 4 col),
              Py.int16 (Py.slice 4 6 col) with
        | Some r, Some g, Some b => Ok (r, g, b)
        | _, _, _ =>
            Raise (ValueError (py "invalid literal for int() with base 16"))
        end)
  end.

(** Lines 269-280, for the mode name picked at line 268. *)
Definition effect_payload_named (mode_name : pstr) (f : EffectForm)
  : result pstr :=
  let mode_id := dict_get (MODE_NAME_TO_ID ctl) mode_name 0%Z in
  let speed := speed_value f in
  let brightness := bright2_value f in
  let direction := dir_value f in
  rbind (effect_rgb f) (fun '(r, g, b) =>
    Ok (Py.join (py ",")
          (Py.str <$> [mode_id; speed; brightness; direction; r; g; b])
        ++ nl)).

(** Line 268 first: the name is taken from the table's keys by index. *)
Definition effect_payload (f : EffectForm) : result pstr :=
  match mode_names !! mode_selected f with
  | None => Raise (IndexError (py "list index out of range"))
  | Some mode_name => effect_payload_named mode_name f
  end.

Definition apply_effect (f : EffectForm) : M unit :=
  try_except (
    ok <~ ask (fun w => path_exists w (KB_FOUR_MODE ctl)) ;;
    if negb ok
    then raise (FileNotFoundError
                  (py "Missing four_zone_mode at " ++ KB_FOUR_MODE ctl))
    else
      payload <~ lift (effect_payload f) ;;
      write_text (KB_FOUR_MODE ctl) payload ;;;
      notifier_info (py "Keyboard effect applied")).

(** *** The power page *)

Definition default_choices : list pstr :=
  [py "balanced"; py "performance"; py "power-saver"].

(** Lines 306-316 of [_build_power_page]. *)
Definition load_choices (w : World) : list pstr :=
  let choices :=
    if path_exists w (PLATFORM_PROFILE_CHOICES ctl)
    then match read_text w (PLATFORM_PROFILE_CHOICES ctl) with
         | Ok raw =>
             filter (fun c => c <> []) (Py.split raw)
         | Raise _ => []
         end
    else [] in
  match choices with
  | [] => default_choices
  | _ => choices
  end.

Definition profile_selection (f : PowerForm) : result pstr :=
  rbind
    (match choices f with
     | [] => Ok None
     | _ =>
         match choices f !! combo_selected f with
         | Some c => Ok (Some c)
         | None => Raise (IndexError (py "list index out of range"))
         end
     end)
    (fun sel =>
       match sel with
       | None | Some [] => Raise (ValueError (py "No profile selected"))
       | Some sel => Ok sel
       end).

Definition apply_profile (f : PowerForm) : M unit :=
  try_except (
    ok <~ ask (fun w => path_exists w (PLATFORM_PROFILE ctl)) ;;
    if negb ok
    then raise (FileNotFoundError (py "Missing " ++ PLATFORM_PROFILE ctl))
    else
      sel <~ lift (profile_selection f) ;;
      write_text (PLATFORM_PROFILE ctl) (sel ++ nl) ;;;
      notifier_info (py "Power profile set to " ++ sel)).

(** *** [apply_fans] *)

(** Lines 395-403. *)
Definition fan_payload (f : FanForm) : result pstr :=
  if auto_active f
  then Ok (py "0,0" ++ nl)
  else
    let cpu := cpu_value f in
    let gpu := gpu_value f in
    if negb ((0 <=? cpu) && (cpu <=? 100) && (0 <=? gpu) && (gpu <=? 100))%Z
    then Raise (ValueError (py "Percentages must be 0-100"))
    else Ok (Py.str cpu ++ py "," ++ Py.str gpu ++ nl).

Definition apply_fans (f : FanForm) : M unit :=
  try_except (
    p <~ ask detect_sense_fan_path ;;
    match p with
    | None | Some [] =>
        raise (FileNotFoundError
                 (py "fan_speed path not found (is the module loaded?)"))
    | Some p =>
        payload <~ lift (fan_payload f) ;;
        write_text p payload ;;;
        notifier_info (py "Fan settings applied")
    end).

End Handlers.

(** ** The specification's vocabulary *)

Module Spec.

Definition is_hex_digit (c : N) : bool :=
  ((48 <=? c) && (c <=? 57) || (97 <=? c) && (c <=? 102)
   || (65 <=? c) && (c <=? 70))%N.

Definition is_lower_hex_digit (c : N) : bool :=
  ((48 <=? c) && (c <=? 57) || (97 <=? c) && (c <=? 102))%N.

(** Exactly six hex digits, in either case. *)
Definition is_hex6 (t : pstr) : bool :=
  (length t =? 6) && forallb is_hex_digit t.

(** HexColor: exactly six characters, each in [0-9a-f]. *)
Definition HexColor (t : pstr) : Prop :=
  length t = 6 /\ Forall (fun c => is_lower_hex_digit c = true) t.

(** "Strip a single optional leading #". *)
Definition strip_hash (s : pstr) : pstr :=
  match s with
  | c :: s' => if (c =? 35)%N then s' else s
  | [] => []
  end.

Definition is_digit (c : N) : bool := ((48 <=? c) && (c <=? 57))%N.

(** The number a run of decimal digits denotes. *)
Definition decimal_value (s : pstr) : Z :=
  fold_left (fun acc c => 10 * acc + (Z.of_N c - 48))%Z s 0%Z.

(** Plain decimal text for [z]: digits only, denoting [z], and no
    leading zero unless the text is the single digit 0. *)
Definition plain_decimal (s : pstr) (z : Z) : Prop :=
  s <> [] /\ Forall (fun c => is_digit c = true) s
  /\ decimal_value s = z
  /\ (head s = Some 48%N -> s = [48%N]).

(** "Split on any whitespace": the fields between consecutive
    white-space characters, the empty ones included. *)
Fixpoint fields (s : pstr) : list pstr :=
  match s with
  | [] => [[]]
  | c :: s' =>
      if Py.isspace c then [] :: fields s'
      else match fields s' with
           | t :: ts => (c :: t) :: ts
           | [] => [[c]]
           end
  end.

(** "Drop empty tokens, preserve order, no de-duplication". *)
Definition decodeChoices (raw : pstr) : list pstr :=
  filter (fun t => t <> []) (fields raw).

(** ZoneColorSet: one colour for all four zones, or one per zone. *)
Inductive ZoneColorSet :=
| SingleColor (c : pstr)
| PerZone (c1 c2 c3 c4 : pstr).

Definition expand (z : ZoneColorSet) : list pstr :=
  match z with
  | SingleColor c => [c; c; c; c]
  | PerZone c1 c2 c3 c4 => [c1; c2; c3; c4]
  end.

(** [color1,color2,color3,color4,brightness] and a newline. *)
Definition encodeKeyboardStatic (z : ZoneColorSet) (brightness : Z) : pstr :=
  match expand z with
  | [c1; c2; c3; c4] =>
      c1 ++ py "," ++ c2 ++ py "," ++ c3 ++ py "," ++ c4 ++ py ","
         ++ Py.str brightness ++ nl
  | _ => []
  end.

Record EffectParams := mkEffectParams {
  mode : pstr;
  speed : Z;
  brightness : Z;
  direction : Z;
  color : option pstr;
}.

Definition valid_params (table : list (pstr * Z)) (p : EffectParams) : Prop :=
  mode p ∈ dict_keys table
  /\ (0 <= speed p <= 9)%Z
  /\ (0 <= brightness p <= 100)%Z
  /\ (direction p = 1 \/ direction p = 2)%Z
  /\ match color p with Some c => HexColor c | None => True end.

(** The position of a digit in [0123456789abcdef]. *)
Fixpoint index_of (c : N) (l : pstr) : option nat :=
  match l with
  | [] => None
  | x :: l' => if (x =? c)%N then Some 0 else S <$> index_of c l'
  end.
Definition digit16 (c : N) : Z :=
  Z.of_nat (default 0 (index_of c (py "0123456789abcdef"))).

(** A pair of hex digits read as a base-16 integer. *)
Definition hex_pair (s : pstr) : Z :=
  match s with
  | [h; l] => (16 * digit16 h + digit16 l)%Z
  | _ => 0%Z
  end.

(** Red, green and blue from the digit pairs [0:2], [2:4], [4:6];
    all zero without a colour. *)
Definition rgb_of_color (c : option pstr) : Z * Z * Z :=
  match c with
  | None => (0, 0, 0)%Z
  | Some c =>
      (hex_pair (take 2 c), hex_pair (take 2 (drop 2 c)),
       hex_pair (take 2 (drop 4 c)))
  end.

(** [modeId,speed,brightness,direction,r,g,b] and a newline. *)
Definition encodeKeyboardEffect (mode_id : Z) (p : EffectParams) : pstr :=
  let '(r, g, b) := rgb_of_color (color p) in
  Py.str mode_id ++ py "," ++ Py.str (speed p) ++ py ","
    ++ Py.str (brightness p) ++ py "," ++ Py.str (direction p) ++ py ","
    ++ Py.str r ++ py "," ++ Py.str g ++ py "," ++ Py.str b ++ nl.

Inductive FanTarget :=
| Auto
| Manual (cpuPercent gpuPercent : Z).

Definition valid_target (t : FanTarget) : Prop :=
  match t with
  | Auto => True
  | Manual cpu gpu => (0 <= cpu <= 100)%Z /\ (0 <= gpu <= 100)%Z
  end.

Definition encodeFan (t : FanTarget) : pstr :=
  match t with
  | Auto => py "0,0" ++ nl
  | Manual cpu gpu => Py.str cpu ++ py "," ++ Py.str gpu ++ nl
  end.

End Spec.

(** The widgets of a page denote a value of the specification's types. *)
Definition static_form_denotes (f : StaticForm) (z : Spec.ZoneColorSet)
    (brightness : Z) : Prop :=
  bright_value f = brightness
  /\ match z with
     | Spec.SingleColor c =>
         single_active f = true
         /\ parse_hex_color (single_color_text f) = Ok c
     | Spec.PerZone c1 c2 c3 c4 =>
         single_active f = false
         /\ exists t1 t2 t3 t4,
             z_entries_text f = [t1; t2; t3; t4]
             /\ parse_hex_color t1 = Ok c1 /\ parse_hex_color t2 = Ok c2
             /\ parse_hex_color t3 = Ok c3 /\ parse_hex_color t4 = Ok c4
     end.

Definition effect_form_denotes (ctl : Ctl) (f : EffectForm)
    (p : Spec.EffectParams) : Prop :=
  mode_names ctl !! mode_selected f = Some (Spec.mode p)
  /\ speed_value f = Spec.speed p
  /\ bright2_value f = Spec.brightness p
  /\ dir_value f = Spec.direction p
  /\ match Spec.color p with
     | None => Py.strip (color_text f) = []
     | Some c => parse_hex_color (color_text f) = Ok c
     end.

Definition fan_form_denotes (f : FanForm) (t : Spec.FanTarget) : Prop :=
  match t with
  | Spec.Auto => auto_active f = true
  | Spec.Manual cpu gpu =>
      auto_active f = false /\ cpu_value f = cpu /\ gpu_value f = gpu
  end.

(** What a handler leaves behind when it fails: only the label changes. *)
Definition failed (msg : pstr) (w : World) : result unit * World :=
  (Ok tt, set_label (mkLabel msg true) w).

(** What a handler leaves behind when its write went through. *)
Definition written (path payload msg : pstr) (w : World) : result unit * World :=
  (Ok tt,
   set_label (mkLabel msg false)
     (set_nodes (insert path (File payload)) (log_write path payload w))).

(** The label an exception caught by the shared handler frame produces. *)
Definition error_label (e : exn) : Label :=
  mkLabel (if is_PermissionError e then permission_message
           else py "Error: " ++ exn_str e) true.

(** How a handler [h] that reached its write of [payload] to [path]
    reports a refusal by the write collaborator. *)
Definition reports_write_failure (h : M unit) (path payload : pstr) (w : World)
  : Prop :=
  (forall m, wfault w path = Some (PermissionError m) ->
             h w = failed permission_message (refused path payload w))
  /\ (forall e, wfault w path = Some e -> is_PermissionError e = false ->
                h w = failed (py "Error: " ++ exn_str e)
                        (refused path payload w)).

(** ** A sample machine *)

(** Modelled from the spec: one instance of the constants of
    [tools/linuwuctl.py], for evaluating the handlers on concrete machines.
    Every general statement below holds for all values of the constants. *)
Definition sample_base : pstr :=
  py "/sys/module/linuwu_sense/drivers/platform:acer-wmi/acer-wmi".
Definition sample_ctl : Ctl := {|
  SYSFS_BASE := sample_base;
  SENSE_PRED := Py.path_join sample_base (py "predator_sense");
  SENSE_NITRO := Py.path_join sample_base (py "nitro_sense");
  KB_PER_ZONE := Py.path_join sample_base (py "four_zoned_kb/per_zone_mode");
  KB_FOUR_MODE := Py.path_join sample_base (py "four_zoned_kb/four_zone_mode");
  PLATFORM_PROFILE := py "/sys/firmware/acpi/platform_profile";
  PLATFORM_PROFILE_CHOICES := py "/sys/firmware/acpi/platform_profile_choices";
  MODE_NAME_TO_ID :=
    [(py "static", 0); (py "breathing", 1); (py "neon", 2); (py "wave", 3);
     (py "shifting", 4); (py "zoom", 5); (py "meteor", 6);
     (py "twinkling", 7)]%Z;
|}.

Definition world_of (files : list (pstr * node)) (wf : pstr -> option exn)
  : World :=
  mkWorld (list_to_map files) wf (fun _ => None) (fun _ => None)
    (fun _ => OSError (py "[Errno 21] Is a directory")) []
    (mkLabel (py "Ready") false).

Definition no_fault : pstr -> option exn := fun _ => None.
Definition deny_all : pstr -> option exn :=
  fun _ => Some (PermissionError (py "[Errno 13] Permission denied")).
Definition reject_all : pstr -> option exn :=
  fun _ => Some (OSError (py "[Errno 22] Invalid argument")).

(** A predator machine with every control file present. *)
Definition predator_files : list (pstr * node) :=
  [(SYSFS_BASE sample_ctl, Dir);
   (SENSE_PRED sample_ctl, Dir);
   (Py.path_join (SENSE_PRED sample_ctl) (py "fan_speed"), File (py "0,0"));
   (KB_PER_ZONE sample_ctl, File []);
   (KB_FOUR_MODE sample_ctl, File []);
   (PLATFORM_PROFILE sample_ctl, File (py "balanced" ++ nl));
   (PLATFORM_PROFILE_CHOICES sample_ctl,
    File (py "low-power  balanced" ++ [9%N] ++ py "performance" ++ nl))].

(** Both vendor directories exist, but only the nitro one has a
    [fan_speed] file. *)
Definition mixed_files : list (pstr * node) :=
  [(SYSFS_BASE sample_ctl, Dir);
   (SENSE_PRED sample_ctl, Dir);
   (SENSE_NITRO sample_ctl, Dir);
   (Py.path_join (SENSE_NITRO sample_ctl) (py "fan_speed"), File (py "0,0"))].

Definition predator_world : World := world_of predator_files no_fault.
Definition mixed_world : World := world_of mixed_files no_fault.

(** The same machine with every write refused for lack of permission, and
    with every write rejected by the driver. *)
Definition denied_world : World := world_of predator_files deny_all.
Definition rejecting_world : World := world_of predator_files reject_all.

(** No driver loaded. *)
Definition bare_world : World := world_of [] no_fault.

(** ** The rest of the page builders *)

(** [l.index(x)] on a list of strings; [None] stands for the [ValueError]
    of an absent element, so that [x in l] is [is_Some]. *)
Fixpoint list_index (x : pstr) (l : list pstr) : option nat :=
  match l with
  | [] => None
  | y :: l' => if decide (y = x) then Some 0 else S <$> list_index x l'
  end.

(** Line 243: [mode_names.index("wave") if "wave" in mode_names else 0]. *)
Definition initial_mode_selected (ctl : Ctl) : nat :=
  match list_index (py "wave") (mode_names ctl) with
  | Some i => i
  | None => 0
  end.

(** Lines 243-250: the effect group as it is built. *)
Definition initial_effect_form (ctl : Ctl) : EffectForm :=
  mkEffectForm (initial_mode_selected ctl) 1 100 2 [].

(** Lines 318-322 of [_build_power_page]: the profile shown as current. *)
Definition current_profile (ctl : Ctl) (w : World) : pstr :=
  if path_exists w (PLATFORM_PROFILE ctl)
  then match read_text w (PLATFORM_PROFILE ctl) with
       | Ok c => c
       | Raise _ => []
       end
  else [].

(** Lines 324-328: the combo row's model, and the position passed to
    [set_selected]; [None] when [set_selected] is not called. *)
Record PowerPage := mkPowerPage {
  page_choices : list pstr;
  page_selected : option nat;
}.

Definition build_power_page (ctl : Ctl) (w : World) : PowerPage :=
  let choices := load_choices ctl w in
  let current := current_profile ctl w in
  mkPowerPage choices (list_index current choices).

(** What one run of a handler may change: it returns normally, leaves the
    collaborators' behaviour and every node other than [path] alone, and
    calls [write_text] at most once, on [path]. *)
Definition footprint (path : pstr) (w : World) (r : result unit * World)
  : Prop :=
  r.1 = Ok tt
  /\ wfault r.2 = wfault w
  /\ rfault r.2 = rfault w
  /\ (forall q, q <> path -> nodes r.2 !! q = nodes w !! q)
  /\ (wlog r.2 = wlog w /\ nodes r.2 = nodes w
      \/ exists payload, wlog r.2 = (path, payload) :: wlog w).

(** Free of white space, and not empty: the shape of a token. *)
Definition is_token (t : pstr) : Prop :=
  t <> [] /\ forallb (fun c => negb (Py.isspace c)) t = true.

(** * Properties *)

(** ** Characters *)

Lemma N_below_forall (P : N -> bool) (n : nat) :
  forallb P (N.of_nat <$> seq 0 n) = true ->
  forall c : N, (c < N.of_nat n)%N -> P c = true.
Proof.
  intros Hall c Hc.
  rewrite forallb_forall in Hall. apply Hall.
  apply list_elem_of_In, list_elem_of_fmap.
  exists (N.to_nat c). split; [lia|].
  apply list_elem_of_In, in_seq. lia.
Qed.

Lemma char_in_hex_alphabet (c : N) :
  Py.char_in c hex_alphabet = Spec.is_hex_digit c.
Proof.
  destruct (N.lt_ge_cases c 128) as [Hlt|Hge].
  - assert (Hall : forallb (fun c => bool_decide
                (Py.char_in c hex_alphabet = Spec.is_hex_digit c))
              (N.of_nat <$> seq 0 128) = true) by (vm_compute; reflexivity).
    apply (N_below_forall _ _ Hall) in Hlt.
    by apply bool_decide_eq_true in Hlt.
  - unfold Spec.is_hex_digit.
    rewrite !(proj2 (N.leb_gt c _)) by lia.
    rewrite !andb_false_r.
    vm_compute hex_alphabet. unfold Py.char_in. simpl.
    rewrite !(proj2 (N.eqb_neq c _)) by lia. reflexivity.
Qed.

Lemma hex_digit_cases (Q : N -> bool) :
  forallb (fun c => implb (Spec.is_hex_digit c) (Q c))
          (N.of_nat <$> seq 0 128) = true ->
  forall c, Spec.is_hex_digit c = true -> Q c = true.
Proof.
  intros Hall c Hc.
  assert (Hlt : (c < N.of_nat 128)%N).
  { unfold Spec.is_hex_digit in Hc.
    destruct (N.leb_spec c 57), (N.leb_spec c 102), (N.leb_spec c 70);
      try lia; rewrite ?andb_false_r in Hc; discriminate. }
  pose proof (N_below_forall _ _ Hall c Hlt) as H.
  simpl in H. rewrite Hc in H. exact H.
Qed.

Lemma hex_digit_not_space (c : N) :
  Spec.is_hex_digit c = true -> Py.isspace c = false.
Proof.
  intros Hc. apply negb_true_iff. revert c Hc.
  apply hex_digit_cases. vm_compute. reflexivity.
Qed.

Lemma lower_char_hex (c : N) :
  Spec.is_hex_digit c = true ->
  Spec.is_lower_hex_digit (Py.lower_char c) = true.
Proof. revert c. apply hex_digit_cases. vm_compute. reflexivity. Qed.

Lemma lower_hex_is_hex (c : N) :
  Spec.is_lower_hex_digit c = true -> Spec.is_hex_digit c = true.
Proof.
  unfold Spec.is_lower_hex_digit, Spec.is_hex_digit.
  intros ->. reflexivity.
Qed.

Lemma lower_char_lower_hex (c : N) :
  Spec.is_lower_hex_digit c = true -> Py.lower_char c = c.
Proof.
  intros Hc. apply N.eqb_eq. revert c Hc.
  assert (Hall : forallb (fun c => implb (Spec.is_lower_hex_digit c)
                                     (Py.lower_char c =? c)%N)
                   (N.of_nat <$> seq 0 128) = true) by (vm_compute; reflexivity).
  intros c Hc.
  assert (Hlt : (c < N.of_nat 128)%N).
  { unfold Spec.is_lower_hex_digit in Hc.
    destruct (N.leb_spec c 57), (N.leb_spec c 102);
      try lia; rewrite ?andb_false_r in Hc; discriminate. }
  pose proof (N_below_forall _ _ Hall c Hlt) as H.
  simpl in H. rewrite Hc in H. exact H.
Qed.

(** ** [strip] *)

Lemma lstrip_spaces (l s : pstr) :
  forallb Py.isspace l = true -> Py.lstrip (l ++ s) = Py.lstrip s.
Proof.
  induction l as [|c l IH]; simpl; [done|].
  intros [Hc Hl]%andb_true_iff. rewrite Hc. auto.
Qed.

Lemma lstrip_all_spaces (l : pstr) :
  forallb Py.isspace l = true -> Py.lstrip l = [].
Proof.
  intros Hl. rewrite <- (app_nil_r l). by rewrite lstrip_spaces.
Qed.

Lemma lstrip_app (s r : pstr) :
  Py.lstrip (s ++ r) =
    match Py.lstrip s with
    | [] => Py.lstrip r
    | t => t ++ r
    end.
Proof.
  induction s as [|c s IH]; simpl.
  - by destruct (Py.lstrip r).
  - destruct (Py.isspace c); [exact IH | reflexivity].
Qed.

Lemma forallb_rev {A} (P : A -> bool) (l : list A) :
  forallb P (rev l) = forallb P l.
Proof.
  induction l as [|x l IH]; simpl; [done|].
  rewrite forallb_app, IH. simpl. rewrite andb_true_r. apply andb_comm.
Qed.

Lemma rstrip_spaces (s r : pstr) :
  forallb Py.isspace r = true -> Py.rstrip (s ++ r) = Py.rstrip s.
Proof.
  intros Hr. unfold Py.rstrip. rewrite rev_app_distr.
  rewrite lstrip_spaces; [done|]. by rewrite forallb_rev.
Qed.

Lemma strip_spaces (l s r : pstr) :
  forallb Py.isspace l = true -> forallb Py.isspace r = true ->
  Py.strip (l ++ s ++ r) = Py.strip s.
Proof.
  intros Hl Hr. unfold Py.strip.
  rewrite lstrip_spaces by done. rewrite lstrip_app.
  destruct (Py.lstrip s) as [|c t] eqn:Hs.
  - by rewrite lstrip_all_spaces.
  - by rewrite rstrip_spaces.
Qed.

Lemma lstrip_no_space (t : pstr) :
  forallb (fun c => negb (Py.isspace c)) t = true -> Py.lstrip t = t.
Proof.
  destruct t as [|c t]; simpl; [done|].
  intros [Hc _]%andb_true_iff. apply negb_true_iff in Hc. by rewrite Hc.
Qed.

Lemma strip_no_space (t : pstr) :
  forallb (fun c => negb (Py.isspace c)) t = true -> Py.strip t = t.
Proof.
  intros Ht. unfold Py.strip, Py.rstrip.
  rewrite (lstrip_no_space t) by done.
  rewrite lstrip_no_space by (by rewrite forallb_rev).
  apply rev_involutive.
Qed.

(** [strip] is idempotent: what it returns starts and ends with a
    character that is not white space. *)
Lemma lstrip_head (s : pstr) :
  match Py.lstrip s with
  | [] => True
  | c :: _ => Py.isspace c = false
  end.
Proof.
  induction s as [|c s IH]; simpl; [done|].
  destruct (Py.isspace c) eqn:Hc; [exact IH | exact Hc].
Qed.

Lemma lstrip_idemp (s : pstr) : Py.lstrip (Py.lstrip s) = Py.lstrip s.
Proof.
  pose proof (lstrip_head s) as H.
  destruct (Py.lstrip s) as [|c t]; simpl; [done|]. by rewrite H.
Qed.

Lemma lstrip_suffix (s : pstr) :
  exists l, forallb Py.isspace l = true /\ s = l ++ Py.lstrip s.
Proof.
  induction s as [|c s (l & Hl & Hs)]; simpl.
  - by exists [].
  - destruct (Py.isspace c) eqn:Hc.
    + exists (c :: l). simpl. rewrite Hc, Hl. split; [done|]. by f_equal.
    + by exists [].
Qed.

Lemma rstrip_prefix (s : pstr) :
  exists r, forallb Py.isspace r = true /\ s = Py.rstrip s ++ r.
Proof.
  destruct (lstrip_suffix (rev s)) as (l & Hl & Hs).
  exists (rev l). rewrite forallb_rev. split; [done|].
  unfold Py.rstrip. rewrite <- rev_app_distr, <- Hs.
  by rewrite rev_involutive.
Qed.

Lemma strip_decompose (s : pstr) :
  exists l r, forallb Py.isspace l = true /\ forallb Py.isspace r = true
              /\ s = l ++ Py.strip s ++ r.
Proof.
  destruct (lstrip_suffix s) as (l & Hl & Hs).
  destruct (rstrip_prefix (Py.lstrip s)) as (r & Hr & Hs').
  exists l, r. repeat split; try done.
  unfold Py.strip. by rewrite <- Hs'.
Qed.

Lemma strip_idemp (s : pstr) : Py.strip (Py.strip s) = Py.strip s.
Proof.
  destruct (strip_decompose s) as (l & r & Hl & Hr & Hs).
  rewrite Hs at 2. by rewrite strip_spaces.
Qed.

(** ** [parse_hex_color] *)

Lemma existsb_negb {A} (P : A -> bool) (l : list A) :
  existsb (fun x => negb (P x)) l = negb (forallb P l).
Proof.
  induction l as [|x l IH]; simpl; [done|].
  rewrite IH. by destruct (P x).
Qed.

Lemma forallb_ext_eq {A} (P Q : A -> bool) (l : list A) :
  (forall x, P x = Q x) -> forallb P l = forallb Q l.
Proof. intros H. induction l as [|x l IH]; simpl; [done|]. by rewrite H, IH. Qed.

Lemma drop_hash (s : pstr) :
  (if Py.startswith (py "#") s then drop 1 s else s) = Spec.strip_hash s.
Proof.
  destruct s as [|c s]; simpl; [done|].
  rewrite andb_true_r, N.eqb_sym, drop_0. reflexivity.
Qed.

Lemma parse_hex_color_unfold (s : pstr) :
  parse_hex_color s =
    if Spec.is_hex6 (Spec.strip_hash (Py.strip s))
    then Ok (Py.lower (Spec.strip_hash (Py.strip s)))
    else Raise (ValueError (py "Use RRGGBB or #RRGGBB")).
Proof.
  unfold parse_hex_color. rewrite drop_hash.
  set (t := Spec.strip_hash (Py.strip s)).
  rewrite existsb_negb, <- negb_andb.
  rewrite (forallb_ext_eq _ Spec.is_hex_digit) by apply char_in_hex_alphabet.
  fold (Spec.is_hex6 t). by destruct (Spec.is_hex6 t).
Qed.

Lemma hex6_forall (t : pstr) :
  Spec.is_hex6 t = true ->
  length t = 6 /\ Forall (fun c => Spec.is_hex_digit c = true) t.
Proof.
  unfold Spec.is_hex6. intros [Hlen Hall]%andb_true_iff.
  split; [by apply Nat.eqb_eq|].
  apply Forall_forall. intros c Hc.
  rewrite forallb_forall in Hall. by apply Hall, list_elem_of_In.
Qed.

Lemma lower_hex6 (t : pstr) :
  Spec.is_hex6 t = true -> Spec.HexColor (Py.lower t).
Proof.
  intros [Hlen Hall]%hex6_forall. split.
  - unfold Py.lower. by rewrite length_fmap.
  - unfold Py.lower. apply Forall_fmap.
    eapply Forall_impl; [exact Hall|]. intros c Hc. by apply lower_char_hex.
Qed.

Lemma HexColor_hex6 (c : pstr) : Spec.HexColor c -> Spec.is_hex6 c = true.
Proof.
  intros [Hlen Hall]. unfold Spec.is_hex6.
  apply andb_true_iff. split; [by apply Nat.eqb_eq|].
  apply forallb_forall. intros x Hx%list_elem_of_In.
  rewrite Forall_forall in Hall. by apply lower_hex_is_hex, Hall.
Qed.

Lemma lower_HexColor (c : pstr) : Spec.HexColor c -> Py.lower c = c.
Proof.
  intros [_ Hall]. unfold Py.lower.
  induction Hall as [|x l Hx Hl IH]; [done|].
  rewrite fmap_cons, IH. f_equal. by apply lower_char_lower_hex.
Qed.

Lemma hexval_lower_char (c : N) :
  Spec.is_hex_digit c = true -> Py.hexval (Py.lower_char c) = Py.hexval c.
Proof.
  intros Hc.
  apply (bool_decide_eq_true_1 (Py.hexval (Py.lower_char c) = Py.hexval c)).
  revert c Hc. apply hex_digit_cases. vm_compute. reflexivity.
Qed.

Lemma hex6_no_space (t : pstr) :
  Spec.is_hex6 t = true ->
  forallb (fun c => negb (Py.isspace c)) t = true.
Proof.
  intros [_ Hall]%hex6_forall. apply forallb_forall.
  intros c Hc%list_elem_of_In. rewrite Forall_forall in Hall.
  apply negb_true_iff, hex_digit_not_space. by apply Hall.
Qed.

Lemma hex6_strip_hash (h : pstr) :
  Spec.is_hex6 h = true -> Spec.strip_hash h = h.
Proof.
  intros [_ Hall]%hex6_forall.
  destruct h as [|c h]; simpl; [done|].
  apply Forall_cons in Hall as [Hc _].
  destruct (N.eqb_spec c 35) as [->|]; [discriminate Hc | done].
Qed.

Lemma parse_hex_color_valid (h : pstr) (hash : bool) :
  Spec.is_hex6 h = true ->
  parse_hex_color ((if hash then py "#" else []) ++ h) = Ok (Py.lower h).
Proof.
  intros Hh. rewrite parse_hex_color_unfold.
  rewrite strip_no_space.
  - destruct hash; simpl.
    + by rewrite Hh.
    + by rewrite hex6_strip_hash, Hh.
  - rewrite forallb_app. rewrite (hex6_no_space h Hh).
    by destruct hash.
Qed.

(** ** [str] of an integer *)

Lemma decimal_value_snoc (ds : pstr) (d : N) :
  Spec.decimal_value (ds ++ [d])
  = (10 * Spec.decimal_value ds + (Z.of_N d - 48))%Z.
Proof. unfold Spec.decimal_value. by rewrite fold_left_app. Qed.

Lemma log2_div10 (n : N) :
  (10 <= n)%N -> (N.log2 (n / 10) < N.log2 n)%N.
Proof.
  intros Hn.
  assert (H2 : (N.log2 (n / 2) = N.log2 n - 1)%N).
  { rewrite <- (N.pow_1_r 2) at 1.
    rewrite <- N.shiftr_div_pow2. apply N.log2_shiftr. }
  assert (Hle : (n / 10 <= n / 2)%N).
  { apply N.div_le_compat_l. lia. }
  apply N.log2_le_mono in Hle.
  assert (Hlog : (N.log2 10 <= N.log2 n)%N) by (by apply N.log2_le_mono).
  change (N.log2 10) with 3%N in Hlog. lia.
Qed.

Lemma digits_fuel_spec (fuel : nat) :
  forall (n : N) (acc : pstr),
    (N.log2 n < N.of_nat fuel)%N ->
    exists ds,
      Py.digits_fuel fuel n acc = ds ++ acc
      /\ ds <> []
      /\ Forall (fun c => Spec.is_digit c = true) ds
      /\ Spec.decimal_value ds = Z.of_N n
      /\ ((0 < n)%N -> head ds <> Some 48%N)
      /\ (n = 0%N -> ds = [48%N]).
Proof.
  induction fuel as [|fuel IH]; intros n acc Hfuel; [lia|].
  simpl. destruct (N.ltb_spec n 10) as [Hlt|Hge].
  - exists [(48 + n mod 10)%N].
    rewrite N.mod_small by done.
    repeat split; try done.
    + repeat constructor. unfold Spec.is_digit.
      apply andb_true_iff. split; apply N.leb_le; lia.
    + unfold Spec.decimal_value. cbn [fold_left].
      rewrite N2Z.inj_add. change (Z.of_N 48) with 48%Z. lia.
    + intros Hpos [=]. lia.
    + by intros ->.
  - destruct (IH (n / 10)%N ((48 + n mod 10)%N :: acc))
      as (ds & Heq & Hne & Hdig & Hval & Hhead & _).
    { pose proof (log2_div10 n Hge). lia. }
    exists (ds ++ [(48 + n mod 10)%N]).
    assert (Hmod : (n mod 10 < 10)%N) by (apply N.mod_lt; lia).
    repeat split.
    + by rewrite Heq, <- app_assoc.
    + by destruct ds.
    + apply Forall_app. split; [done|].
      repeat constructor. unfold Spec.is_digit.
      clear -Hmod. revert Hmod. generalize (n mod 10)%N. intros m Hm.
      apply andb_true_iff. split; apply N.leb_le; lia.
    + rewrite decimal_value_snoc, Hval.
      rewrite N2Z.inj_add. change (Z.of_N 48) with 48%Z.
      pose proof (N.div_mod n 10 ltac:(lia)) as Hdm.
      revert Hdm. clear. generalize (n mod 10)%N (n / 10)%N. lia.
    + intros _. destruct ds as [|d ds]; [done|]. simpl.
      apply Hhead. apply N.div_str_pos. lia.
    + lia.
Qed.

Lemma str_N_spec (n : N) : Spec.plain_decimal (Py.str_N n) (Z.of_N n).
Proof.
  destruct (digits_fuel_spec (S (N.to_nat (N.log2 n))) n [] ltac:(lia))
    as (ds & Heq & Hne & Hdig & Hval & Hhead & Hzero).
  unfold Py.str_N. rewrite Heq, app_nil_r.
  repeat split; try done.
  intros H0. destruct (N.eq_dec n 0) as [->|Hn]; [by apply Hzero|].
  exfalso. apply Hhead; [lia | done].
Qed.

Lemma str_plain_decimal (z : Z) :
  (0 <= z)%Z -> Spec.plain_decimal (Py.str z) z.
Proof.
  intros Hz. destruct z as [|p|p]; [| |lia].
  - apply (str_N_spec 0).
  - apply (str_N_spec (Npos p)).
Qed.

Lemma str_negative (z : Z) :
  (z < 0)%Z -> Py.str z = 45%N :: Py.str (- z).
Proof. destruct z; (lia || done). Qed.

(** ** [split] *)

Lemma fields_nonempty (s : pstr) : Spec.fields s <> [].
Proof.
  destruct s as [|c s]; simpl; [done|].
  destruct (Py.isspace c); [done|]. by destruct (Spec.fields s).
Qed.

Lemma split_go_fields (s : pstr) :
  forall tok,
    Py.split_go tok s =
      filter (fun t => t <> [])
        (match Spec.fields s with
         | t :: ts => (tok ++ t) :: ts
         | [] => [tok]
         end).
Proof.
  induction s as [|c s IH]; intros tok; simpl.
  - rewrite app_nil_r. by destruct tok.
  - destruct (Py.isspace c).
    + rewrite app_nil_r.
      assert (H0 : Py.split_go [] s = filter (fun t => t <> []) (Spec.fields s)).
      { rewrite IH. pose proof (fields_nonempty s).
        by destruct (Spec.fields s). }
      rewrite H0. by destruct tok.
    + rewrite IH. pose proof (fields_nonempty s) as Hne.
      destruct (Spec.fields s) as [|t ts]; [done|].
      by rewrite <- app_assoc.
Qed.

(** Python's scanning [split] computes the tokens the specification
    describes. *)
Lemma split_decodeChoices (s : pstr) : Py.split s = Spec.decodeChoices s.
Proof.
  unfold Py.split, Spec.decodeChoices. rewrite split_go_fields.
  pose proof (fields_nonempty s). by destruct (Spec.fields s).
Qed.

Lemma split_tokens_nonempty (s : pstr) :
  Forall (fun t => t <> []) (Py.split s).
Proof.
  rewrite split_decodeChoices. unfold Spec.decodeChoices.
  apply Forall_forall. by intros t [Ht _]%list_elem_of_filter.
Qed.

Lemma filter_all {A} (P : A -> Prop) `{forall x, Decision (P x)} (l : list A) :
  Forall P l -> filter P l = l.
Proof.
  induction 1 as [|x l Hx Hl IH]; [done|].
  rewrite filter_cons_True by done. by rewrite IH.
Qed.

Lemma split_go_leading_space (l s : pstr) :
  forallb Py.isspace l = true -> Py.split_go [] (l ++ s) = Py.split_go [] s.
Proof.
  induction l as [|c l IH]; simpl; [done|].
  intros [Hc Hl]%andb_true_iff. rewrite Hc. auto.
Qed.

Lemma split_go_all_space (r : pstr) :
  forallb Py.isspace r = true ->
  forall tok, Py.split_go tok r = match tok with [] => [] | _ => [tok] end.
Proof.
  induction r as [|c r IH]; simpl; [done|].
  intros [Hc Hr]%andb_true_iff tok. rewrite Hc.
  rewrite (IH Hr []). by destruct tok.
Qed.

Lemma split_go_trailing_space (s r : pstr) :
  forallb Py.isspace r = true ->
  forall tok, Py.split_go tok (s ++ r) = Py.split_go tok s.
Proof.
  intros Hr. induction s as [|c s IH]; intros tok; simpl.
  - by apply split_go_all_space.
  - by rewrite !IH.
Qed.

Lemma split_strip (s : pstr) : Py.split (Py.strip s) = Py.split s.
Proof.
  destruct (strip_decompose s) as (l & r & Hl & Hr & Hs).
  rewrite Hs at 2. unfold Py.split.
  rewrite split_go_leading_space by done.
  by rewrite split_go_trailing_space.
Qed.

(** ** Fan path resolution *)

Lemma detect_predator_dir_without_fan_file (ctl : Ctl) (w : World) :
  path_exists w (SYSFS_BASE ctl) = true ->
  path_exists w (SENSE_PRED ctl) = true ->
  path_exists w (Py.path_join (SENSE_PRED ctl) (py "fan_speed")) = false ->
  detect_sense_fan_path ctl w = None.
Proof.
  intros Hbase Hpred Hfan. unfold detect_sense_fan_path.
  by rewrite Hbase, Hpred, Hfan.
Qed.

Lemma detect_not_empty (ctl : Ctl) (w : World) :
  detect_sense_fan_path ctl w <> Some [].
Proof.
  unfold detect_sense_fan_path.
  assert (Hj : forall a, Py.path_join a (py "fan_speed") <> []).
  { intros a. unfold Py.path_join. simpl.
    destruct (last a) as [c|]; [destruct (c =? 47)%N|];
      by destruct a. }
  repeat case_match; try done; intros [=]; by eapply Hj.
Qed.

(** C1, as the code has it: with the sysfs base present, the two vendor
    directories are probed in the fixed order predator, nitro, and the
    first one that exists is chosen; the result is that directory's
    [fan_speed] path when the file exists and nothing otherwise, also when
    the other directory has the file.  Without the base, or without either
    directory, the result is nothing. *)
Theorem detect_sense_fan_path_first_existing_dir (ctl : Ctl) (w : World) :
  detect_sense_fan_path ctl w =
    if path_exists w (SYSFS_BASE ctl)
    then match List.find (path_exists w) [SENSE_PRED ctl; SENSE_NITRO ctl] with
         | Some dir =>
             if path_exists w (Py.path_join dir (py "fan_speed"))
             then Some (Py.path_join dir (py "fan_speed"))
             else None
         | None => None
         end
    else None.
Proof.
  unfold detect_sense_fan_path. simpl.
  destruct (path_exists w (SYSFS_BASE ctl)); [|done].
  destruct (path_exists w (SENSE_PRED ctl)); [done|].
  by destruct (path_exists w (SENSE_NITRO ctl)).
Qed.

(** C1 as stated fails: the predator directory exists without a
    [fan_speed] file, the nitro directory has one, and resolution finds
    nothing. *)
Lemma detect_mixed_world_finds_nothing :
  path_exists mixed_world (SYSFS_BASE sample_ctl) = true
  /\ path_exists mixed_world (SENSE_PRED sample_ctl) = true
  /\ path_exists mixed_world
       (Py.path_join (SENSE_PRED sample_ctl) (py "fan_speed")) = false
  /\ path_exists mixed_world
       (Py.path_join (SENSE_NITRO sample_ctl) (py "fan_speed")) = true
  /\ detect_sense_fan_path sample_ctl mixed_world = None.
Proof. vm_compute. repeat split. Qed.

Example detect_predator_world :
  detect_sense_fan_path sample_ctl predator_world
  = Some (py "/sys/module/linuwu_sense/drivers/platform:acer-wmi/acer-wmi/predator_sense/fan_speed").
Proof. vm_compute. reflexivity. Qed.

Example detect_bare_world : detect_sense_fan_path sample_ctl bare_world = None.
Proof. vm_compute. reflexivity. Qed.

(** ** The handler frame *)

Lemma encode_ignore_id (s : pstr) :
  Forall (fun c => (c < 128)%N) s -> encode_ignore s = s.
Proof.
  unfold encode_ignore. induction 1 as [|c s Hc Hs IH]; simpl; [done|].
  rewrite IH. unfold is_surrogate.
  rewrite (proj2 (N.leb_gt 0xD800 c)) by lia. done.
Qed.

Lemma write_text_ok (path content old : pstr) (w : World) :
  wfault w path = None -> nodes w !! path = Some (File old) ->
  Forall (fun c => (c < 128)%N) content ->
  write_text path content w
  = (Ok tt, set_nodes (insert path (File content)) (log_write path content w)).
Proof.
  intros Hf Hn Hc. unfold write_text.
  by rewrite Hf, Hn, (encode_ignore_id content Hc).
Qed.

Lemma write_text_fault (path content : pstr) (e : exn) (w : World) :
  wfault w path = Some e ->
  write_text path content w = (Raise e, refused path content w).
Proof. intros Hf. unfold write_text. by rewrite Hf. Qed.

Lemma try_except_tail {A} (r : result A) (path : pstr) (c m : A -> pstr)
    (w : World) :
  try_except (x <~ lift r ;; write_text path (c x) ;;; notifier_info (m x)) w
  = match r with
    | Raise e => (Ok tt, set_label (error_label e) w)
    | Ok x =>
        match write_text path (c x) w with
        | (Ok _, w1) => (Ok tt, set_label (mkLabel (m x) false) w1)
        | (Raise e, w1) => (Ok tt, set_label (error_label e) w1)
        end
    end.
Proof.
  unfold try_except, bind, lift, error_label, notifier_error, notifier_info.
  destruct r as [x|e].
  - destruct (write_text path (c x) w) as [[[]|e] w1]; [done|].
    by destruct (is_PermissionError e).
  - by destruct (is_PermissionError e).
Qed.

Lemma try_except_guard (ok : World -> bool) (e : exn) (k : M unit) (w : World) :
  try_except (b <~ ask ok ;; if negb b then raise e else k) w
  = if ok w then try_except k w else (Ok tt, set_label (error_label e) w).
Proof.
  unfold try_except, bind, ask, raise, error_label, notifier_error.
  destruct (ok w); simpl; [done|]. by destruct (is_PermissionError e).
Qed.

(** ** What the pure stages can raise *)

Lemma parse_hex_color_raises (s : pstr) (e : exn) :
  parse_hex_color s = Raise e -> e = ValueError (py "Use RRGGBB or #RRGGBB").
Proof.
  rewrite parse_hex_color_unfold.
  destruct (Spec.is_hex6 _); [done | by intros [= <-]].
Qed.

Lemma rmap_raises {A B} (f : A -> result B) (P : exn -> Prop) (l : list A) :
  (forall x e, f x = Raise e -> P e) ->
  forall e, rmap f l = Raise e -> P e.
Proof.
  intros Hf. induction l as [|x l IH]; simpl; [done|].
  intros e. destruct (f x) as [y|e'] eqn:Hx; simpl.
  - destruct (rmap f l) as [ys|e'']; simpl; [done|].
    intros [= <-]. by apply IH.
  - intros [= <-]. by eapply Hf.
Qed.

Lemma static_payload_raises (f : StaticForm) (e : exn) :
  static_payload f = Raise e -> is_PermissionError e = false.
Proof.
  unfold static_payload. destruct (single_active f).
  - destruct (parse_hex_color _) as [c|e'] eqn:Hp; simpl; [done|].
    intros [= <-]. by apply parse_hex_color_raises in Hp as ->.
  - destruct (rmap _ _) as [cs|e'] eqn:Hr; simpl.
    + destruct (negb _); simpl; [by intros [= <-] | done].
    + intros [= <-].
      eapply (rmap_raises _ (fun e => is_PermissionError e = false)); [|exact Hr].
      intros x e1 He1. by apply parse_hex_color_raises in He1 as ->.
Qed.

Lemma effect_payload_raises (ctl : Ctl) (f : EffectForm) (e : exn) :
  effect_payload ctl f = Raise e -> is_PermissionError e = false.
Proof.
  unfold effect_payload, effect_payload_named, effect_rgb.
  destruct (mode_names ctl !! mode_selected f); [|by intros [= <-]].
  destruct (Py.strip (color_text f)) as [|c t]; simpl; [done|].
  destruct (parse_hex_color _) as [col|e'] eqn:Hp; simpl.
  - repeat case_match; simpl; try done; by intros [= <-].
  - intros [= <-]. by apply parse_hex_color_raises in Hp as ->.
Qed.

Lemma profile_selection_raises (f : PowerForm) (e : exn) :
  profile_selection f = Raise e -> is_PermissionError e = false.
Proof.
  unfold profile_selection.
  destruct (choices f) as [|c cs]; simpl; [by intros [= <-]|].
  destruct ((c :: cs) !! combo_selected f) as [[|x sel]|]; simpl;
    try done; by intros [= <-].
Qed.

Lemma fan_payload_raises (f : FanForm) (e : exn) :
  fan_payload f = Raise e -> is_PermissionError e = false.
Proof.
  unfold fan_payload. repeat case_match; try done. by intros [= <-].
Qed.

Lemma error_label_plain (e : exn) :
  is_PermissionError e = false ->
  error_label e = mkLabel (py "Error: " ++ exn_str e) true.
Proof. unfold error_label. by intros ->. Qed.

(** ** The four handlers, stage by stage *)

Section Stages.

Variable ctl : Ctl.
Variable w : World.

Lemma apply_static_stages (f : StaticForm) :
  apply_static ctl f w =
    if path_exists w (KB_PER_ZONE ctl)
    then match static_payload f with
         | Raise e => failed (py "Error: " ++ exn_str e) w
         | Ok p =>
             match write_text (KB_PER_ZONE ctl) p w with
             | (Ok _, w1) =>
                 (Ok tt, set_label
                           (mkLabel (py "Keyboard static colors applied") false) w1)
             | (Raise e, w1) => (Ok tt, set_label (error_label e) w1)
             end
         end
    else failed (py "Error: Missing per_zone_mode at " ++ KB_PER_ZONE ctl) w.
Proof.
  unfold apply_static. rewrite try_except_guard.
  destruct (path_exists w (KB_PER_ZONE ctl)); [|done].
  rewrite (try_except_tail _ _ (fun p => p)
             (fun _ => py "Keyboard static colors applied")).
  destruct (static_payload f) as [p|e] eqn:Hp; [done|].
  by rewrite (error_label_plain e (static_payload_raises f e Hp)).
Qed.

Lemma apply_effect_stages (f : EffectForm) :
  apply_effect ctl f w =
    if path_exists w (KB_FOUR_MODE ctl)
    then match effect_payload ctl f with
         | Raise e => failed (py "Error: " ++ exn_str e) w
         | Ok p =>
             match write_text (KB_FOUR_MODE ctl) p w with
             | (Ok _, w1) =>
                 (Ok tt, set_label
                           (mkLabel (py "Keyboard effect applied") false) w1)
             | (Raise e, w1) => (Ok tt, set_label (error_label e) w1)
             end
         end
    else failed (py "Error: Missing four_zone_mode at " ++ KB_FOUR_MODE ctl) w.
Proof.
  unfold apply_effect. rewrite try_except_guard.
  destruct (path_exists w (KB_FOUR_MODE ctl)); [|done].
  rewrite (try_except_tail _ _ (fun p => p)
             (fun _ => py "Keyboard effect applied")).
  destruct (effect_payload ctl f) as [p|e] eqn:Hp; [done|].
  by rewrite (error_label_plain e (effect_payload_raises ctl f e Hp)).
Qed.

Lemma apply_profile_stages (f : PowerForm) :
  apply_profile ctl f w =
    if path_exists w (PLATFORM_PROFILE ctl)
    then match profile_selection f with
         | Raise e => failed (py "Error: " ++ exn_str e) w
         | Ok sel =>
             match write_text (PLATFORM_PROFILE ctl) (sel ++ nl) w with
             | (Ok _, w1) =>
                 (Ok tt, set_label
                           (mkLabel (py "Power profile set to " ++ sel) false) w1)
             | (Raise e, w1) => (Ok tt, set_label (error_label e) w1)
             end
         end
    else failed (py "Error: Missing " ++ PLATFORM_PROFILE ctl) w.
Proof.
  unfold apply_profile. rewrite try_except_guard.
  destruct (path_exists w (PLATFORM_PROFILE ctl)); [|done].
  rewrite (try_except_tail _ _ (fun sel => sel ++ nl)
             (fun sel => py "Power profile set to " ++ sel)).
  destruct (profile_selection f) as [p|e] eqn:Hp; [done|].
  by rewrite (error_label_plain e (profile_selection_raises f e Hp)).
Qed.

Lemma apply_fans_stages (f : FanForm) :
  apply_fans ctl f w =
    match detect_sense_fan_path ctl w with
    | Some p =>
        match fan_payload f with
        | Raise e => failed (py "Error: " ++ exn_str e) w
        | Ok payload =>
            match write_text p payload w with
            | (Ok _, w1) =>
                (Ok tt, set_label
                          (mkLabel (py "Fan settings applied") false) w1)
            | (Raise e, w1) => (Ok tt, set_label (error_label e) w1)
            end
        end
    | None =>
        failed (py "Error: fan_speed path not found (is the module loaded?)") w
    end.
Proof.
  unfold apply_fans.
  pose proof (detect_not_empty ctl w) as Hne.
  assert (Hsplit : forall (k : option pstr -> M unit),
             try_except (p <~ ask (detect_sense_fan_path ctl) ;; k p) w
             = try_except (k (detect_sense_fan_path ctl w)) w) by done.
  rewrite Hsplit.
  destruct (detect_sense_fan_path ctl w) as [[|c p]|]; [done| |done].
  rewrite (try_except_tail _ _ (fun p => p)
             (fun _ => py "Fan settings applied")).
  destruct (fan_payload f) as [pl|e] eqn:Hp; [done|].
  by rewrite (error_label_plain e (fan_payload_raises f e Hp)).
Qed.

End Stages.

(** ** Failures before the write *)

Lemma failed_touches_label_only (msg : pstr) (w : World) :
  nodes (failed msg w).2 = nodes w
  /\ wlog (failed msg w).2 = wlog w
  /\ label (failed msg w).2 = mkLabel msg true.
Proof. done. Qed.

(** C7: in each of the four handlers, a missing path is reported without
    looking at the input, and an input that the validation stage rejects
    is reported without calling [write_text]; in both cases the outcome is
    [failed msg w], which differs from the initial machine in its label
    only: no node changes and the log of writes is as before. *)
Theorem prewrite_failure_writes_nothing (ctl : Ctl) (w : World) :
  (forall f : StaticForm,
      (path_exists w (KB_PER_ZONE ctl) = false ->
       apply_static ctl f w
       = failed (py "Error: Missing per_zone_mode at " ++ KB_PER_ZONE ctl) w)
      /\ (forall e, path_exists w (KB_PER_ZONE ctl) = true ->
                    static_payload f = Raise e ->
                    apply_static ctl f w = failed (py "Error: " ++ exn_str e) w))
  /\ (forall f : EffectForm,
      (path_exists w (KB_FOUR_MODE ctl) = false ->
       apply_effect ctl f w
       = failed (py "Error: Missing four_zone_mode at " ++ KB_FOUR_MODE ctl) w)
      /\ (forall e, path_exists w (KB_FOUR_MODE ctl) = true ->
                    effect_payload ctl f = Raise e ->
                    apply_effect ctl f w = failed (py "Error: " ++ exn_str e) w))
  /\ (forall f : PowerForm,
      (path_exists w (PLATFORM_PROFILE ctl) = false ->
       apply_profile ctl f w
       = failed (py "Error: Missing " ++ PLATFORM_PROFILE ctl) w)
      /\ (forall e, path_exists w (PLATFORM_PROFILE ctl) = true ->
                    profile_selection f = Raise e ->
                    apply_profile ctl f w = failed (py "Error: " ++ exn_str e) w))
  /\ (forall f : FanForm,
      (detect_sense_fan_path ctl w = None ->
       apply_fans ctl f w
       = failed (py "Error: fan_speed path not found (is the module loaded?)") w)
      /\ (forall e, detect_sense_fan_path ctl w <> None ->
                    fan_payload f = Raise e ->
                    apply_fans ctl f w = failed (py "Error: " ++ exn_str e) w))
  /\ (forall msg,
      nodes (failed msg w).2 = nodes w
      /\ wlog (failed msg w).2 = wlog w
      /\ error_class (label (failed msg w).2) = true).
Proof.
  split; [|split; [|split; [|split]]].
  - intros f. split.
    + intros H. by rewrite apply_static_stages, H.
    + intros e H Hp. by rewrite apply_static_stages, H, Hp.
  - intros f. split.
    + intros H. by rewrite apply_effect_stages, H.
    + intros e H Hp. by rewrite apply_effect_stages, H, Hp.
  - intros f. split.
    + intros H. by rewrite apply_profile_stages, H.
    + intros e H Hp. by rewrite apply_profile_stages, H, Hp.
  - intros f. split.
    + intros H. by rewrite apply_fans_stages, H.
    + intros e H Hp. rewrite apply_fans_stages.
      destruct (detect_sense_fan_path ctl w); [by rewrite Hp | done].
  - done.
Qed.

Lemma prewrite_failure_witness :
  path_exists predator_world (KB_PER_ZONE sample_ctl) = true
  /\ static_payload (mkStaticForm true (py "00aafg") [] 100)
     = Raise (ValueError (py "Use RRGGBB or #RRGGBB"))
  /\ apply_static sample_ctl (mkStaticForm true (py "00aafg") [] 100)
       predator_world
     = failed (py "Error: Use RRGGBB or #RRGGBB") predator_world.
Proof.
  split; [vm_compute; reflexivity|].
  split; [vm_compute; reflexivity|].
  apply (proj2 (proj1 (prewrite_failure_writes_nothing sample_ctl predator_world)
                  (mkStaticForm true (py "00aafg") [] 100))
           (ValueError (py "Use RRGGBB or #RRGGBB"))).
  - vm_compute; reflexivity.
  - vm_compute; reflexivity.
Defined.

Example apply_fans_bare_world :
  apply_fans sample_ctl (mkFanForm false 40 60) bare_world
  = failed (py "Error: fan_speed path not found (is the module loaded?)")
      bare_world.
Proof. by rewrite apply_fans_stages. Qed.

(** ** Failures of the write *)

Lemma stage_write_failure (path payload info : pstr) (w : World) (h : M unit) :
  h w = match write_text path payload w with
        | (Ok _, w1) => (Ok tt, set_label (mkLabel info false) w1)
        | (Raise e, w1) => (Ok tt, set_label (error_label e) w1)
        end ->
  reports_write_failure h path payload w.
Proof.
  intros Hh. split.
  - intros m Hf. by rewrite Hh, (write_text_fault _ _ _ _ Hf).
  - intros e Hf He. rewrite Hh, (write_text_fault _ _ _ _ Hf).
    by rewrite (error_label_plain e He).
Qed.

(** C8: once a handler has resolved its path and built its payload, a
    [PermissionError] from the write collaborator is reported with the
    message that asks for root, and any other exception with the generic
    message carrying the exception's own text; the two messages differ. *)
Theorem write_failure_is_reported_by_kind (ctl : Ctl) (w : World) :
  (forall f p, path_exists w (KB_PER_ZONE ctl) = true ->
               static_payload f = Ok p ->
               reports_write_failure (apply_static ctl f) (KB_PER_ZONE ctl) p w)
  /\ (forall f p, path_exists w (KB_FOUR_MODE ctl) = true ->
                  effect_payload ctl f = Ok p ->
                  reports_write_failure (apply_effect ctl f) (KB_FOUR_MODE ctl) p w)
  /\ (forall f sel, path_exists w (PLATFORM_PROFILE ctl) = true ->
                    profile_selection f = Ok sel ->
                    reports_write_failure (apply_profile ctl f)
                      (PLATFORM_PROFILE ctl) (sel ++ nl) w)
  /\ (forall f path p, detect_sense_fan_path ctl w = Some path ->
                       fan_payload f = Ok p ->
                       reports_write_failure (apply_fans ctl f) path p w)
  /\ permission_message = py "Permission denied: run as root to apply."
  /\ (forall m, Py.startswith (py "Error: ") permission_message = false
                /\ Py.startswith (py "Error: ") (py "Error: " ++ m) = true).
Proof.
  split; [|split; [|split; [|split; [|split]]]].
  - intros f p H Hp.
    apply (stage_write_failure _ _ (py "Keyboard static colors applied")).
    by rewrite apply_static_stages, H, Hp.
  - intros f p H Hp.
    apply (stage_write_failure _ _ (py "Keyboard effect applied")).
    by rewrite apply_effect_stages, H, Hp.
  - intros f sel H Hp.
    apply (stage_write_failure _ _ (py "Power profile set to " ++ sel)).
    by rewrite apply_profile_stages, H, Hp.
  - intros f path p H Hp.
    apply (stage_write_failure _ _ (py "Fan settings applied")).
    by rewrite apply_fans_stages, H, Hp.
  - done.
  - done.
Qed.

Lemma write_failure_witness :
  path_exists denied_world (KB_PER_ZONE sample_ctl) = true
  /\ static_payload (mkStaticForm true (py "#00AAFF") [] 100)
     = Ok (py "00aaff,00aaff,00aaff,00aaff,100" ++ nl)
  /\ wfault denied_world (KB_PER_ZONE sample_ctl)
     = Some (PermissionError (py "[Errno 13] Permission denied"))
  /\ apply_static sample_ctl (mkStaticForm true (py "#00AAFF") [] 100)
       denied_world
     = failed (py "Permission denied: run as root to apply.")
         (log_write (KB_PER_ZONE sample_ctl)
            (py "00aaff,00aaff,00aaff,00aaff,100" ++ nl) denied_world).
Proof.
  split; [vm_compute; reflexivity|].
  split; [vm_compute; reflexivity|].
  split; [vm_compute; reflexivity|].
  apply (proj1 (proj1 (write_failure_is_reported_by_kind sample_ctl denied_world)
                  (mkStaticForm true (py "#00AAFF") [] 100)
                  (py "00aaff,00aaff,00aaff,00aaff,100" ++ nl)
                  ltac:(vm_compute; reflexivity)
                  ltac:(vm_compute; reflexivity))
           (py "[Errno 13] Permission denied")).
  vm_compute; reflexivity.
Defined.

Example apply_fans_rejected :
  label (apply_fans sample_ctl (mkFanForm false 40 60) rejecting_world).2
  = mkLabel (py "Error: [Errno 22] Invalid argument") true.
Proof. vm_compute. reflexivity. Qed.

(** ** Newline translation *)

Lemma split_go_space (c : N) (s tok : pstr) :
  Py.isspace c = true ->
  Py.split_go tok (c :: s)
  = match tok with [] => Py.split_go [] s | _ => tok :: Py.split_go [] s end.
Proof. intros Hc. simpl. by rewrite Hc. Qed.

Lemma universal_newlines_cr (s : pstr) :
  universal_newlines (13%N :: s)
  = 10%N :: match s with
            | d :: s' =>
                if (d =? 10)%N then universal_newlines s'
                else universal_newlines s
            | [] => []
            end.
Proof. by destruct s. Qed.

Lemma universal_newlines_other (c : N) (s : pstr) :
  c <> 13%N -> universal_newlines (c :: s) = c :: universal_newlines s.
Proof.
  intros Hc. cbn [universal_newlines].
  by rewrite (proj2 (N.eqb_neq c 13) Hc).
Qed.

Lemma split_go_universal_newlines_le (n : nat) :
  forall s tok,
    length s <= n ->
    Py.split_go tok (universal_newlines s) = Py.split_go tok s.
Proof.
  induction n as [|n IH]; intros s tok Hlen.
  - destruct s; [done | simpl in Hlen; lia].
  - destruct s as [|c s]; [done|]. simpl in Hlen.
    destruct (N.eq_dec c 13) as [->|Hc].
    + rewrite universal_newlines_cr, !split_go_space by done.
      assert (Hrest : Py.split_go []
                        match s with
                        | d :: s' =>
                            if (d =? 10)%N then universal_newlines s'
                            else universal_newlines s
                        | [] => []
                        end
                      = Py.split_go [] s).
      { destruct s as [|d s']; [done|]. simpl in Hlen.
        destruct (N.eqb_spec d 10) as [->|Hd].
        - rewrite split_go_space by done. apply IH. lia.
        - apply IH. simpl. lia. }
      by rewrite Hrest.
    + rewrite universal_newlines_other by done.
      cbn [Py.split_go]. destruct (Py.isspace c).
      * rewrite (IH s []) by lia. done.
      * apply IH. lia.
Qed.

Lemma split_universal_newlines (s : pstr) :
  Py.split (universal_newlines s) = Py.split s.
Proof. by apply (split_go_universal_newlines_le (length s)). Qed.

Lemma universal_newlines_no_cr (s : pstr) :
  Forall (fun c => c <> 13%N) s -> universal_newlines s = s.
Proof.
  induction 1 as [|c s Hc Hs IH]; [done|].
  by rewrite universal_newlines_other, IH.
Qed.

(** ** Power-profile choices *)

(** C9: the list of choices is the choices file's tokens (split on white
    space, empty tokens dropped, order and duplicates kept) when the file
    exists, can be read and has at least one token; in every other case it
    is the hardcoded default. *)
Theorem load_choices_tokens_or_default (ctl : Ctl) (w : World) :
  load_choices ctl w =
    match nodes w !! PLATFORM_PROFILE_CHOICES ctl,
          rfault w (PLATFORM_PROFILE_CHOICES ctl) with
    | Some (File raw), None =>
        match Spec.decodeChoices raw with
        | [] => [py "balanced"; py "performance"; py "power-saver"]
        | tokens => tokens
        end
    | _, _ => [py "balanced"; py "performance"; py "power-saver"]
    end.
Proof.
  unfold load_choices, path_exists, read_text.
  destruct (nodes w !! PLATFORM_PROFILE_CHOICES ctl) as [[|raw]|] eqn:Hn.
  - rewrite bool_decide_eq_true_2 by eauto.
    by destruct (rfault w (PLATFORM_PROFILE_CHOICES ctl)).
  - rewrite bool_decide_eq_true_2 by eauto.
    destruct (rfault w (PLATFORM_PROFILE_CHOICES ctl)); [done|].
    rewrite split_strip, split_universal_newlines.
    rewrite filter_all by apply split_tokens_nonempty.
    rewrite split_decodeChoices.
    by destruct (Spec.decodeChoices raw).
  - rewrite bool_decide_eq_false_2 by (by intros [? ?]).
    done.
Qed.

Example decodeChoices_mixed_space :
  Spec.decodeChoices
    (py "balanced  performance" ++ [9%N] ++ py "power-saver" ++ nl)
  = [py "balanced"; py "performance"; py "power-saver"].
Proof. vm_compute. reflexivity. Qed.

Example decodeChoices_keeps_duplicates :
  Spec.decodeChoices (py "quiet balanced quiet")
  = [py "quiet"; py "balanced"; py "quiet"].
Proof. vm_compute. reflexivity. Qed.

Example load_choices_predator_world :
  load_choices sample_ctl predator_world
  = [py "low-power"; py "balanced"; py "performance"].
Proof. vm_compute. reflexivity. Qed.

Example load_choices_bare_world :
  load_choices sample_ctl bare_world
  = [py "balanced"; py "performance"; py "power-saver"].
Proof. vm_compute. reflexivity. Qed.

(** ** Colour validation *)

(** C3, as the code has it: the input is first stripped of white space on
    both sides; then one optional leading [#] is removed, and the result
    is accepted exactly when six hex digits remain, giving their
    lower-case form; everything else is rejected with the format error. *)
Theorem parse_hex_color_after_strip (s : pstr) :
  parse_hex_color s =
    (if Spec.is_hex6 (Spec.strip_hash (Py.strip s))
     then Ok (Py.lower (Spec.strip_hash (Py.strip s)))
     else Raise (ValueError (py "Use RRGGBB or #RRGGBB")))
  /\ (forall c, parse_hex_color s = Ok c ->
                Spec.HexColor c
                /\ Py.hexval <$> c
                   = Py.hexval <$> Spec.strip_hash (Py.strip s)).
Proof.
  split; [apply parse_hex_color_unfold|].
  intros c. rewrite parse_hex_color_unfold.
  destruct (Spec.is_hex6 _) eqn:Hh; [|done].
  intros [= <-]. split; [by apply lower_hex6|].
  apply hex6_forall in Hh as [_ Hall].
  unfold Py.lower. rewrite <- list_fmap_compose.
  apply Forall_fmap_ext_1. eapply Forall_impl; [exact Hall|].
  intros x Hx. by apply hexval_lower_char.
Qed.

Lemma parse_hex_color_after_strip_witness :
  parse_hex_color (py "  #FF00aa ") = Ok (py "ff00aa")
  /\ Spec.HexColor (py "ff00aa").
Proof.
  split; [vm_compute; reflexivity|].
  apply (proj2 (parse_hex_color_after_strip (py "  #FF00aa ")) (py "ff00aa")).
  vm_compute; reflexivity.
Defined.

(** C3 as stated fails: after removing an optional leading [#] this input
    has seven characters, one of them a space, and it is accepted. *)
Lemma parse_hex_color_accepts_padded_input :
  Spec.strip_hash (py " ff00aa") = py " ff00aa"
  /\ length (Spec.strip_hash (py " ff00aa")) = 7
  /\ Spec.is_hex6 (Spec.strip_hash (py " ff00aa")) = false
  /\ parse_hex_color (py " ff00aa") = Ok (py "ff00aa").
Proof. vm_compute. repeat split. Qed.

Example parse_hex_color_rejects :
  parse_hex_color (py "00aaf") = Raise (ValueError (py "Use RRGGBB or #RRGGBB"))
  /\ parse_hex_color (py "##00aaff")
     = Raise (ValueError (py "Use RRGGBB or #RRGGBB"))
  /\ parse_hex_color (py "00aaxf")
     = Raise (ValueError (py "Use RRGGBB or #RRGGBB")).
Proof. vm_compute. repeat split. Qed.

(** C10: white space around the input is removed before anything else is
    looked at, so a valid colour, with or without [#], is accepted with
    the same lower-case result however much white space surrounds it. *)
Theorem parse_hex_color_ignores_surrounding_space
    (l r h : pstr) (hash : bool) :
  forallb Py.isspace l = true ->
  forallb Py.isspace r = true ->
  Spec.is_hex6 h = true ->
  parse_hex_color ((if hash then py "#" else []) ++ h) = Ok (Py.lower h)
  /\ parse_hex_color (l ++ ((if hash then py "#" else []) ++ h) ++ r)
     = Ok (Py.lower h)
  /\ (forall s, parse_hex_color (l ++ s ++ r) = parse_hex_color s).
Proof.
  intros Hl Hr Hh.
  assert (Hany : forall s, parse_hex_color (l ++ s ++ r) = parse_hex_color s).
  { intros s. rewrite !parse_hex_color_unfold. by rewrite strip_spaces. }
  split; [by apply parse_hex_color_valid|].
  split; [|exact Hany].
  rewrite Hany. by apply parse_hex_color_valid.
Qed.

Lemma parse_hex_color_ignores_surrounding_space_witness :
  forallb Py.isspace [32; 9; 0xA0]%N = true
  /\ forallb Py.isspace [10; 0x3000]%N = true
  /\ Spec.is_hex6 (py "FF00aa") = true
  /\ parse_hex_color ([32; 9; 0xA0]%N ++ (py "#" ++ py "FF00aa") ++ [10; 0x3000]%N)
     = Ok (py "ff00aa").
Proof.
  split; [reflexivity|]. split; [reflexivity|]. split; [reflexivity|].
  apply (proj1 (proj2 (parse_hex_color_ignores_surrounding_space
                         [32; 9; 0xA0]%N [10; 0x3000]%N (py "FF00aa") true
                         eq_refl eq_refl eq_refl))).
Defined.

(** ** Payloads are plain ASCII *)

Lemma str_ascii (z : Z) : Forall (fun c => (c < 128)%N) (Py.str z).
Proof.
  assert (Hpos : forall n, Forall (fun c => (c < 128)%N) (Py.str_N n)).
  { intros n. destruct (str_N_spec n) as (_ & Hdig & _).
    eapply Forall_impl; [exact Hdig|].
    intros c. unfold Spec.is_digit. intros [_ H]%andb_true_iff.
    apply N.leb_le in H. lia. }
  destruct z as [|p|p]; simpl; try apply Hpos.
  constructor; [lia | apply Hpos].
Qed.

Lemma lower_hex_ascii (c : pstr) :
  Forall (fun x => Spec.is_lower_hex_digit x = true) c ->
  Forall (fun x => (x < 128)%N) c.
Proof.
  intros H. eapply Forall_impl; [exact H|].
  intros x. unfold Spec.is_lower_hex_digit.
  destruct (N.leb_spec x 57), (N.leb_spec x 102); try lia;
    rewrite ?andb_false_r; discriminate.
Qed.

Lemma parse_hex_color_ascii (s c : pstr) :
  parse_hex_color s = Ok c -> Forall (fun x => (x < 128)%N) c.
Proof.
  rewrite parse_hex_color_unfold.
  destruct (Spec.is_hex6 _) eqn:Hh; [|done].
  intros [= <-]. apply lower_hex_ascii. by apply lower_hex6.
Qed.

Lemma join_ascii (sep : pstr) (parts : list pstr) :
  Forall (fun x => (x < 128)%N) sep ->
  Forall (Forall (fun x => (x < 128)%N)) parts ->
  Forall (fun x => (x < 128)%N) (Py.join sep parts).
Proof.
  intros Hsep. induction 1 as [|t ts Ht Hts IH]; [constructor|].
  destruct ts as [|t2 ts]; [done|].
  change (Py.join sep (t :: t2 :: ts)) with (t ++ sep ++ Py.join sep (t2 :: ts)).
  rewrite !Forall_app. auto.
Qed.

Lemma comma_ascii : Forall (fun x => (x < 128)%N) (py ",").
Proof. constructor; [done | constructor]. Qed.

Lemma nl_ascii : Forall (fun x => (x < 128)%N) nl.
Proof. constructor; [done | constructor]. Qed.

Lemma rmap_Forall {A B} (f : A -> result B) (P : B -> Prop) (l : list A) :
  (forall x y, f x = Ok y -> P y) ->
  forall ys, rmap f l = Ok ys -> Forall P ys.
Proof.
  intros Hf. induction l as [|x l IH]; simpl; intros ys.
  - intros [= <-]. constructor.
  - destruct (f x) as [y|e] eqn:Hx; simpl; [|done].
    destruct (rmap f l) as [zs|e]; simpl; [|done].
    intros [= <-]. constructor; [by eapply Hf | by apply IH].
Qed.

Lemma repeat_list_Forall {A} (P : A -> Prop) (l : list A) (n : nat) :
  Forall P l -> Forall P (Py.repeat_list l n).
Proof.
  intros Hl. induction n as [|n IH]; simpl; [constructor|].
  apply Forall_app. auto.
Qed.

Lemma static_payload_ascii (f : StaticForm) (p : pstr) :
  static_payload f = Ok p -> Forall (fun x => (x < 128)%N) p.
Proof.
  unfold static_payload.
  assert (Hline : forall colors,
             Forall (Forall (fun x => (x < 128)%N)) colors ->
             Forall (fun x => (x < 128)%N)
               (Py.join (py ",") (colors ++ [Py.str (bright_value f)]) ++ nl)).
  { intros colors Hc. apply Forall_app. split; [|apply nl_ascii].
    apply join_ascii; [apply comma_ascii|].
    apply Forall_app. split; [done|].
    constructor; [apply str_ascii | constructor]. }
  assert (Hfinal : forall colors,
             Forall (Forall (fun x => (x < 128)%N)) colors ->
             Forall (fun x => (x < 128)%N)
               (Py.join (py ",")
                  ((if length colors =? 1 then Py.repeat_list colors 4
                    else colors) ++ [Py.str (bright_value f)]) ++ nl)).
  { intros colors Hc. apply Hline.
    destruct (length colors =? 1); [by apply repeat_list_Forall | done]. }
  destruct (single_active f).
  - destruct (parse_hex_color _) as [c|e] eqn:Hp; simpl; [|done].
    intros [= <-]. apply (Hfinal [c]).
    constructor; [by eapply parse_hex_color_ascii | constructor].
  - destruct (rmap _ _) as [cs|e] eqn:Hr; simpl; [|done].
    destruct (negb _); simpl; [done|].
    intros [= <-]. apply Hfinal.
    eapply rmap_Forall; [|exact Hr].
    intros x y Hxy. by eapply parse_hex_color_ascii.
Qed.

Lemma effect_payload_ascii (ctl : Ctl) (f : EffectForm) (p : pstr) :
  effect_payload ctl f = Ok p -> Forall (fun x => (x < 128)%N) p.
Proof.
  unfold effect_payload, effect_payload_named.
  destruct (mode_names ctl !! mode_selected f); [|done].
  destruct (effect_rgb f) as [[[r g] b]|]; [|done].
  cbn [rbind]. set (line := Py.join _ _). intros [= <-]. subst line.
  apply Forall_app. split; [|apply nl_ascii].
  apply join_ascii; [apply comma_ascii|].
  cbn [fmap list_fmap].
  repeat (constructor; [apply str_ascii|]). constructor.
Qed.

Lemma fan_payload_ascii (f : FanForm) (p : pstr) :
  fan_payload f = Ok p -> Forall (fun x => (x < 128)%N) p.
Proof.
  unfold fan_payload. destruct (auto_active f).
  - intros [= <-]. apply Forall_forall. intros x Hx.
    assert (Hall : forallb (fun x => (x <? 128)%N) (py "0,0" ++ nl) = true)
      by reflexivity.
    rewrite forallb_forall in Hall. apply N.ltb_lt, Hall.
    by apply list_elem_of_In.
  - destruct (negb _); [done|].
    set (line := Py.str _ ++ _). intros [= <-]. subst line.
    apply Forall_app. split; [apply str_ascii|].
    apply Forall_app. split; [apply comma_ascii|].
    apply Forall_app. split; [apply str_ascii | apply nl_ascii].
Qed.

(** ** Successful writes *)

Lemma path_exists_file (w : World) (p old : pstr) :
  nodes w !! p = Some (File old) -> path_exists w p = true.
Proof. intros H. unfold path_exists. rewrite H. by apply bool_decide_eq_true_2. Qed.

Lemma apply_static_writes (ctl : Ctl) (f : StaticForm) (w : World) (p old : pstr) :
  nodes w !! KB_PER_ZONE ctl = Some (File old) ->
  wfault w (KB_PER_ZONE ctl) = None ->
  static_payload f = Ok p ->
  apply_static ctl f w
  = written (KB_PER_ZONE ctl) p (py "Keyboard static colors applied") w.
Proof.
  intros Hn Hf Hp. rewrite apply_static_stages.
  rewrite (path_exists_file _ _ _ Hn), Hp.
  by rewrite (write_text_ok _ _ _ _ Hf Hn (static_payload_ascii _ _ Hp)).
Qed.

Lemma apply_effect_writes (ctl : Ctl) (f : EffectForm) (w : World) (p old : pstr) :
  nodes w !! KB_FOUR_MODE ctl = Some (File old) ->
  wfault w (KB_FOUR_MODE ctl) = None ->
  effect_payload ctl f = Ok p ->
  apply_effect ctl f w
  = written (KB_FOUR_MODE ctl) p (py "Keyboard effect applied") w.
Proof.
  intros Hn Hf Hp. rewrite apply_effect_stages.
  rewrite (path_exists_file _ _ _ Hn), Hp.
  by rewrite (write_text_ok _ _ _ _ Hf Hn (effect_payload_ascii _ _ _ Hp)).
Qed.

Lemma apply_fans_writes (ctl : Ctl) (f : FanForm) (w : World)
    (path p old : pstr) :
  detect_sense_fan_path ctl w = Some path ->
  nodes w !! path = Some (File old) ->
  wfault w path = None ->
  fan_payload f = Ok p ->
  apply_fans ctl f w = written path p (py "Fan settings applied") w.
Proof.
  intros Hd Hn Hf Hp. rewrite apply_fans_stages.
  rewrite Hd, Hp.
  by rewrite (write_text_ok _ _ _ _ Hf Hn (fan_payload_ascii _ _ Hp)).
Qed.

(** ** The fan payload *)

(** C6: the automatic target is written as the literal [0,0] line; a
    manual target within 0..100 is written as its two numbers in plain
    decimal, separated by a comma and followed by one newline.  Zero is
    written like any other number, so a manual 0,0 gives the very line of
    the automatic target; nothing in between changes the numbers, and the
    line reaches [write_text] as built. *)
Theorem fan_payload_encodes (f : FanForm) (t : Spec.FanTarget) :
  fan_form_denotes f t ->
  Spec.valid_target t ->
  fan_payload f = Ok (Spec.encodeFan t)
  /\ match t with
     | Spec.Auto => Spec.encodeFan t = py "0,0" ++ nl
     | Spec.Manual cpu gpu =>
         Spec.encodeFan t = Py.str cpu ++ py "," ++ Py.str gpu ++ nl
         /\ Spec.plain_decimal (Py.str cpu) cpu
         /\ Spec.plain_decimal (Py.str gpu) gpu
     end
  /\ Spec.encodeFan (Spec.Manual 0 0) = Spec.encodeFan Spec.Auto
  /\ (forall ctl w path old,
         detect_sense_fan_path ctl w = Some path ->
         nodes w !! path = Some (File old) ->
         wfault w path = None ->
         apply_fans ctl f w
         = written path (Spec.encodeFan t) (py "Fan settings applied") w).
Proof.
  intros Hden Hval.
  assert (Hpay : fan_payload f = Ok (Spec.encodeFan t)).
  { unfold fan_payload. destruct t as [|cpu gpu]; simpl in *.
    - by rewrite Hden.
    - destruct Hden as (-> & -> & ->). destruct Hval as [Hc Hg].
      replace ((0 <=? cpu) && (cpu <=? 100) && (0 <=? gpu) && (gpu <=? 100))%Z
        with true; [done|].
      symmetry. rewrite !andb_true_iff. repeat split; apply Z.leb_le; lia. }
  split; [exact Hpay|]. split; [|split; [done|]].
  - destruct t as [|cpu gpu]; [done|]. destruct Hval as [Hc Hg].
    split; [done|]. split; apply str_plain_decimal; lia.
  - intros ctl w path old Hd Hn Hf. by eapply apply_fans_writes.
Qed.

Lemma fan_payload_encodes_witness :
  fan_form_denotes (mkFanForm false 40 60) (Spec.Manual 40 60)
  /\ Spec.valid_target (Spec.Manual 40 60)
  /\ fan_payload (mkFanForm false 40 60) = Ok (py "40,60" ++ nl).
Proof.
  assert (Hden : fan_form_denotes (mkFanForm false 40 60) (Spec.Manual 40 60))
    by (simpl; repeat split; reflexivity).
  assert (Hval : Spec.valid_target (Spec.Manual 40 60)) by (simpl; lia).
  split; [exact Hden|]. split; [exact Hval|].
  exact (proj1 (fan_payload_encodes _ _ Hden Hval)).
Defined.

Example fan_payload_auto_ignores_spin_rows :
  fan_payload (mkFanForm true 55 70) = Ok (py "0,0" ++ nl).
Proof. reflexivity. Qed.

Example fan_payload_manual_zero :
  fan_payload (mkFanForm false 0 0) = Ok (py "0,0" ++ nl)
  /\ fan_payload (mkFanForm false 0 35) = Ok (py "0,35" ++ nl)
  /\ fan_payload (mkFanForm false 100 7) = Ok (py "100,7" ++ nl).
Proof. vm_compute. repeat split. Qed.

Example fan_payload_out_of_range :
  fan_payload (mkFanForm false 101 0)
  = Raise (ValueError (py "Percentages must be 0-100")).
Proof. reflexivity. Qed.

Example apply_fans_predator_world :
  nodes (apply_fans sample_ctl (mkFanForm false 40 60) predator_world).2
    !! Py.path_join (SENSE_PRED sample_ctl) (py "fan_speed")
  = Some (File (py "40,60" ++ nl)).
Proof. vm_compute. reflexivity. Qed.

(** ** The static keyboard payload *)

Lemma parse_hex_color_HexColor (s c : pstr) :
  parse_hex_color s = Ok c -> Spec.HexColor c.
Proof.
  rewrite parse_hex_color_unfold.
  destruct (Spec.is_hex6 _) eqn:Hh; [|done].
  intros [= <-]. by apply lower_hex6.
Qed.

(** C5: for widgets that denote a zone colour set and a brightness in
    0..100, the payload is the four colours (a single colour repeated four
    times), then the brightness, separated by commas and ended by one
    newline; each colour is six lower-case hex digits without [#], the
    brightness is plain decimal text; and that line is what is written. *)
Theorem static_payload_encodes
    (f : StaticForm) (z : Spec.ZoneColorSet) (brightness : Z) :
  static_form_denotes f z brightness ->
  (0 <= brightness <= 100)%Z ->
  static_payload f = Ok (Spec.encodeKeyboardStatic z brightness)
  /\ (exists c1 c2 c3 c4,
         Spec.expand z = [c1; c2; c3; c4]
         /\ Spec.encodeKeyboardStatic z brightness
            = c1 ++ py "," ++ c2 ++ py "," ++ c3 ++ py "," ++ c4 ++ py ","
                 ++ Py.str brightness ++ nl)
  /\ Forall Spec.HexColor (Spec.expand z)
  /\ Spec.plain_decimal (Py.str brightness) brightness
  /\ (forall ctl w old,
         nodes w !! KB_PER_ZONE ctl = Some (File old) ->
         wfault w (KB_PER_ZONE ctl) = None ->
         apply_static ctl f w
         = written (KB_PER_ZONE ctl) (Spec.encodeKeyboardStatic z brightness)
             (py "Keyboard static colors applied") w).
Proof.
  intros [Hb Hz] Hrange.
  assert (Hpay : static_payload f = Ok (Spec.encodeKeyboardStatic z brightness)).
  { unfold static_payload, Spec.encodeKeyboardStatic. rewrite Hb.
    destruct z as [c|c1 c2 c3 c4].
    - destruct Hz as [-> Hc]. rewrite Hc.
      cbn [rbind length Nat.eqb Py.repeat_list app Py.join Spec.expand].
      by rewrite <- !app_assoc.
    - destruct Hz as (-> & t1 & t2 & t3 & t4 & -> & H1 & H2 & H3 & H4).
      cbn [rmap]. rewrite H1, H2, H3, H4.
      cbn [rbind length Nat.eqb negb app Py.join Spec.expand].
      by rewrite <- !app_assoc. }
  split; [exact Hpay|]. split; [|split; [|split]].
  - destruct z as [c|c1 c2 c3 c4]; simpl; eauto 10.
  - destruct z as [c|c1 c2 c3 c4]; simpl.
    + destruct Hz as [_ Hc%parse_hex_color_HexColor].
      repeat (constructor; [assumption|]). constructor.
    + destruct Hz as (_ & t1 & t2 & t3 & t4 & _ & H1%parse_hex_color_HexColor
                      & H2%parse_hex_color_HexColor & H3%parse_hex_color_HexColor
                      & H4%parse_hex_color_HexColor).
      repeat (constructor; [assumption|]). constructor.
  - apply str_plain_decimal. lia.
  - intros ctl w old Hn Hf. by eapply apply_static_writes.
Qed.

Lemma static_payload_encodes_witness :
  static_form_denotes (mkStaticForm true (py "#00AAFF") [] 100)
    (Spec.SingleColor (py "00aaff")) 100
  /\ static_payload (mkStaticForm true (py "#00AAFF") [] 100)
     = Ok (py "00aaff,00aaff,00aaff,00aaff,100" ++ nl).
Proof.
  assert (Hden : static_form_denotes (mkStaticForm true (py "#00AAFF") [] 100)
                   (Spec.SingleColor (py "00aaff")) 100)
    by (vm_compute; repeat split; reflexivity).
  split; [exact Hden|].
  exact (proj1 (static_payload_encodes _ _ 100 Hden ltac:(lia))).
Defined.

Example static_payload_per_zone :
  static_payload
    (mkStaticForm false (py "ignored")
       [py "ff0000"; py "#00FF00"; py " 0000ff"; py "FFFFFF"] 7)
  = Ok (py "ff0000,00ff00,0000ff,ffffff,7" ++ nl).
Proof. vm_compute. reflexivity. Qed.

Example static_payload_per_zone_bad_entry :
  static_payload
    (mkStaticForm false (py "00aaff")
       [py "ff0000"; py "00FF0"; py "0000ff"; py "FFFFFF"] 7)
  = Raise (ValueError (py "Use RRGGBB or #RRGGBB")).
Proof. vm_compute. reflexivity. Qed.

Example apply_static_predator_world :
  apply_static sample_ctl (mkStaticForm true (py "00aaff") [] 100) predator_world
  = written (KB_PER_ZONE sample_ctl)
      (py "00aaff,00aaff,00aaff,00aaff,100" ++ nl)
      (py "Keyboard static colors applied") predator_world.
Proof. by apply (apply_static_writes _ _ _ _ []). Qed.

(** ** The mode table *)

Lemma dict_lookup_Some {V} (d : list (pstr * V)) (k : pstr) (v : V) :
  dict_lookup d k = Some v -> (k, v) ∈ d.
Proof.
  induction d as [|[k' v'] d IH]; simpl; [done|].
  destruct (decide (k' = k)) as [->|].
  - intros [= ->]. apply list_elem_of_here.
  - intros H. apply list_elem_of_further. by apply IH.
Qed.

Lemma dict_lookup_None {V} (d : list (pstr * V)) (k : pstr) :
  k ∉ dict_keys d -> dict_lookup d k = None.
Proof.
  induction d as [|[k' v'] d IH]; simpl; [done|].
  intros Hk. apply not_elem_of_cons in Hk as [Hne Hk].
  destruct (decide (k' = k)) as [->|]; [done|]. by apply IH.
Qed.


Lemma dict_lookup_NoDup {V} (d : list (pstr * V)) (k : pstr) (v : V) :
  NoDup (dict_keys d) -> (k, v) ∈ d -> dict_lookup d k = Some v.
Proof.
  induction d as [|[k' v'] d IH]; simpl.
  - by intros _ ?%elem_of_nil.
  - intros [Hnotin Hnd]%NoDup_cons [[= -> ->]|Hin]%elem_of_cons.
    + by rewrite decide_True.
    + destruct (decide (k' = k)) as [->|]; [|by apply IH].
      exfalso. apply Hnotin. unfold dict_keys.
      apply list_elem_of_fmap. by exists (k, v).
Qed.

(** ** Hex digit pairs *)

Lemma hexval_digit16 (c : N) :
  Spec.is_lower_hex_digit c = true -> Py.hexval c = Some (Spec.digit16 c).
Proof.
  intros Hc.
  apply (bool_decide_eq_true_1 (Py.hexval c = Some (Spec.digit16 c))).
  revert c Hc.
  assert (Hall : forallb (fun c => implb (Spec.is_lower_hex_digit c)
                    (bool_decide (Py.hexval c = Some (Spec.digit16 c))))
                   (N.of_nat <$> seq 0 128) = true) by (vm_compute; reflexivity).
  intros c Hc.
  assert (Hlt : (c < N.of_nat 128)%N).
  { unfold Spec.is_lower_hex_digit in Hc.
    destruct (N.leb_spec c 57), (N.leb_spec c 102);
      try lia; rewrite ?andb_false_r in Hc; discriminate. }
  pose proof (N_below_forall _ _ Hall c Hlt) as H.
  simpl in H. rewrite Hc in H. exact H.
Qed.

Lemma index_of_bound (c : N) (l : pstr) (i : nat) :
  Spec.index_of c l = Some i -> i < length l.
Proof.
  revert i. induction l as [|x l IH]; simpl; [done|].
  intros i. destruct (x =? c)%N.
  - intros [= <-]. lia.
  - destruct (Spec.index_of c l) as [j|]; simpl; [|done].
    intros [= <-]. specialize (IH j eq_refl). lia.
Qed.

Lemma digit16_range (c : N) : (0 <= Spec.digit16 c <= 15)%Z.
Proof.
  unfold Spec.digit16.
  destruct (Spec.index_of c (py "0123456789abcdef")) as [i|] eqn:Hi; simpl.
  - apply index_of_bound in Hi. simpl in Hi. lia.
  - lia.
Qed.

Lemma hex_pair_range (s : pstr) : (0 <= Spec.hex_pair s <= 255)%Z.
Proof.
  unfold Spec.hex_pair.
  destruct s as [|h [|l [|x s]]]; try lia.
  pose proof (digit16_range h). pose proof (digit16_range l). lia.
Qed.

Lemma int16_pair (h l : N) :
  Spec.is_lower_hex_digit h = true -> Spec.is_lower_hex_digit l = true ->
  Py.int16 [h; l] = Some (Spec.hex_pair [h; l]).
Proof.
  intros Hh Hl. unfold Py.int16, Py.int16_go, Spec.hex_pair.
  by rewrite (hexval_digit16 h Hh), (hexval_digit16 l Hl).
Qed.

Lemma HexColor_six (c : pstr) :
  Spec.HexColor c ->
  exists a1 a2 a3 a4 a5 a6,
    c = [a1; a2; a3; a4; a5; a6]
    /\ Forall (fun x => Spec.is_lower_hex_digit x = true) c.
Proof.
  intros [Hlen Hall].
  destruct c as [|a1 [|a2 [|a3 [|a4 [|a5 [|a6 [|a7 c]]]]]]]; try done.
  by exists a1, a2, a3, a4, a5, a6.
Qed.

(** ** The colour entry of the effect page *)

Lemma parse_hex_color_strip (s : pstr) :
  parse_hex_color (Py.strip s) = parse_hex_color s.
Proof. rewrite !parse_hex_color_unfold. by rewrite strip_idemp. Qed.

Lemma effect_rgb_blank (f : EffectForm) :
  Py.strip (color_text f) = [] -> effect_rgb f = Ok (0, 0, 0)%Z.
Proof. intros H. unfold effect_rgb. by rewrite H. Qed.

Lemma effect_rgb_color (f : EffectForm) (c : pstr) :
  parse_hex_color (color_text f) = Ok c ->
  effect_rgb f = Ok (Spec.rgb_of_color (Some c)).
Proof.
  intros Hp. unfold effect_rgb.
  destruct (Py.strip (color_text f)) as [|x t] eqn:Hs.
  - rewrite parse_hex_color_unfold, Hs in Hp. discriminate Hp.
  - rewrite <- Hs, parse_hex_color_strip, Hp.
    destruct (HexColor_six c (parse_hex_color_HexColor _ _ Hp))
      as (a1 & a2 & a3 & a4 & a5 & a6 & -> & Hall).
    repeat (apply List.Forall_cons_iff in Hall as [? Hall]).
    unfold Py.slice, Spec.rgb_of_color. cbn [rbind take drop Nat.sub].
    by rewrite !int16_pair.
Qed.

Lemma effect_rgb_raises_or_bytes (f : EffectForm) (r g b : Z) :
  effect_rgb f = Ok (r, g, b) ->
  (0 <= r <= 255 /\ 0 <= g <= 255 /\ 0 <= b <= 255)%Z.
Proof.
  unfold effect_rgb.
  destruct (Py.strip (color_text f)) as [|x t] eqn:Hs.
  - intros [= <- <- <-]. lia.
  - rewrite <- Hs, parse_hex_color_strip.
    destruct (parse_hex_color (color_text f)) as [c|e] eqn:Hp; [|done].
    pose proof (effect_rgb_color f c Hp) as Hrgb.
    unfold effect_rgb in Hrgb.
    rewrite Hs, <- Hs, parse_hex_color_strip, Hp in Hrgb.
    rewrite Hrgb. unfold Spec.rgb_of_color. intros [= <- <- <-].
    repeat split; apply hex_pair_range.
Qed.

(** ** The effect payload *)

Lemma effect_payload_selected (ctl : Ctl) (f : EffectForm) (name : pstr) :
  mode_names ctl !! mode_selected f = Some name ->
  effect_payload ctl f = effect_payload_named ctl name f.
Proof. intros H. unfold effect_payload. by rewrite H. Qed.

Lemma effect_line (f : EffectForm) (id r g b : Z) :
  Py.join (py ",")
    (Py.str <$> [id; speed_value f; bright2_value f; dir_value f; r; g; b])
    ++ nl
  = Py.str id ++ py "," ++ Py.str (speed_value f) ++ py ","
      ++ Py.str (bright2_value f) ++ py "," ++ Py.str (dir_value f) ++ py ","
      ++ Py.str r ++ py "," ++ Py.str g ++ py "," ++ Py.str b ++ nl.
Proof. cbn [fmap list_fmap Py.join]. by rewrite <- !app_assoc. Qed.

(** C4: for widgets that denote valid effect parameters, the payload is
    the mode's table id, the speed, the brightness, the direction and the
    red, green and blue values, as decimal integers separated by commas
    and ended by one newline; red, green and blue are the colour's digit
    pairs read in base 16, each within 0..255, and all zero without a
    colour; and that line is what is written. *)
Theorem effect_payload_encodes
    (ctl : Ctl) (f : EffectForm) (p : Spec.EffectParams) (id : Z) :
  NoDup (dict_keys (MODE_NAME_TO_ID ctl)) ->
  (Spec.mode p, id) ∈ MODE_NAME_TO_ID ctl ->
  Spec.valid_params (MODE_NAME_TO_ID ctl) p ->
  effect_form_denotes ctl f p ->
  effect_payload ctl f = Ok (Spec.encodeKeyboardEffect id p)
  /\ (exists r g b,
         Spec.rgb_of_color (Spec.color p) = (r, g, b)
         /\ Spec.encodeKeyboardEffect id p
            = Py.str id ++ py "," ++ Py.str (Spec.speed p) ++ py ","
                ++ Py.str (Spec.brightness p) ++ py ","
                ++ Py.str (Spec.direction p) ++ py ","
                ++ Py.str r ++ py "," ++ Py.str g ++ py "," ++ Py.str b ++ nl
         /\ (0 <= r <= 255 /\ 0 <= g <= 255 /\ 0 <= b <= 255)%Z
         /\ (Spec.color p = None -> r = 0 /\ g = 0 /\ b = 0)%Z
         /\ Forall (fun z => Spec.plain_decimal (Py.str z) z)
              [Spec.speed p; Spec.brightness p; Spec.direction p; r; g; b])
  /\ (forall w old,
         nodes w !! KB_FOUR_MODE ctl = Some (File old) ->
         wfault w (KB_FOUR_MODE ctl) = None ->
         apply_effect ctl f w
         = written (KB_FOUR_MODE ctl) (Spec.encodeKeyboardEffect id p)
             (py "Keyboard effect applied") w).
Proof.
  intros Hnd Hin (_ & Hspeed & Hbright & Hdir & Hcol) (Hsel & Hs & Hb & Hd & Hc).
  assert (Hrgb : effect_rgb f = Ok (Spec.rgb_of_color (Spec.color p))).
  { destruct (Spec.color p) as [c|].
    - by apply effect_rgb_color.
    - by apply effect_rgb_blank. }
  assert (Hpay : effect_payload ctl f = Ok (Spec.encodeKeyboardEffect id p)).
  { rewrite (effect_payload_selected _ _ _ Hsel).
    unfold effect_payload_named, dict_get.
    rewrite (dict_lookup_NoDup _ _ _ Hnd Hin), Hrgb.
    unfold Spec.encodeKeyboardEffect.
    destruct (Spec.rgb_of_color (Spec.color p)) as [[r g] b].
    cbn [rbind default]. by rewrite effect_line, Hs, Hb, Hd. }
  split; [exact Hpay|]. split.
  - destruct (Spec.rgb_of_color (Spec.color p)) as [[r g] b] eqn:Hrgbp.
    exists r, g, b.
    pose proof (effect_rgb_raises_or_bytes f r g b Hrgb) as (Hr & Hg & Hbl).
    split; [done|]. split.
    { unfold Spec.encodeKeyboardEffect. by rewrite Hrgbp. }
    split; [done|]. split.
    { intros Hnone. rewrite Hnone in Hrgbp. by injection Hrgbp as <- <- <-. }
    repeat (apply List.Forall_cons; [apply str_plain_decimal; lia|]).
    apply List.Forall_nil.
  - intros w old Hn Hf. by eapply apply_effect_writes.
Qed.

Lemma effect_payload_encodes_witness :
  NoDup (dict_keys (MODE_NAME_TO_ID sample_ctl))
  /\ (py "wave", 3%Z) ∈ MODE_NAME_TO_ID sample_ctl
  /\ effect_payload sample_ctl (mkEffectForm 3 1 100 2 (py "ff00aa"))
     = Ok (py "3,1,100,2,255,0,170" ++ nl).
Proof.
  assert (Hnd : NoDup (dict_keys (MODE_NAME_TO_ID sample_ctl)))
    by (compute_done).
  assert (Hin : (py "wave", 3%Z) ∈ MODE_NAME_TO_ID sample_ctl)
    by (compute_done).
  split; [exact Hnd|]. split; [exact Hin|].
  refine (proj1 (effect_payload_encodes sample_ctl
                   (mkEffectForm 3 1 100 2 (py "ff00aa"))
                   (Spec.mkEffectParams (py "wave") 1 100 2 (Some (py "ff00aa")))
                   3 Hnd Hin _ _)).
  - split; [|split; [|split; [|split]]].
    + compute_done.
    + simpl. lia.
    + simpl. lia.
    + right. reflexivity.
    + simpl. split; [reflexivity | compute_done].
  - repeat split; vm_compute; reflexivity.
Defined.

Example effect_payload_without_color :
  effect_payload sample_ctl (mkEffectForm 3 1 100 2 []) = Ok (py "3,1,100,2,0,0,0" ++ nl)
  /\ effect_payload sample_ctl (mkEffectForm 3 1 100 2 (py "   "))
     = Ok (py "3,1,100,2,0,0,0" ++ nl).
Proof. vm_compute. repeat split. Qed.

Example effect_payload_bad_color :
  effect_payload sample_ctl (mkEffectForm 3 1 100 2 (py "ff00a"))
  = Raise (ValueError (py "Use RRGGBB or #RRGGBB")).
Proof. vm_compute. reflexivity. Qed.

(** ** Effect mode names *)



Example apply_effect_selection_out_of_range :
  apply_effect sample_ctl (mkEffectForm 8 1 100 2 []) predator_world
  = failed (py "Error: list index out of range") predator_world.
Proof. by rewrite apply_effect_stages. Qed.

(** * Further properties of the handlers *)

(** ** What fan path resolution returns *)

(** X1: a path returned by [detect_sense_fan_path] exists, the sysfs base
    exists, and the path is the [fan_speed] file of the predator directory
    or, only when the predator directory is absent, of the nitro
    directory. *)
Theorem detect_sense_fan_path_sound (ctl : Ctl) (w : World) (p : pstr) :
  detect_sense_fan_path ctl w = Some p ->
  path_exists w p = true
  /\ path_exists w (SYSFS_BASE ctl) = true
  /\ (p = Py.path_join (SENSE_PRED ctl) (py "fan_speed")
      /\ path_exists w (SENSE_PRED ctl) = true
      \/ p = Py.path_join (SENSE_NITRO ctl) (py "fan_speed")
         /\ path_exists w (SENSE_NITRO ctl) = true
         /\ path_exists w (SENSE_PRED ctl) = false).
Proof.
  unfold detect_sense_fan_path.
  destruct (path_exists w (SYSFS_BASE ctl)); [|done].
  destruct (path_exists w (SENSE_PRED ctl)) eqn:Hpred.
  - destruct (path_exists w (Py.path_join _ _)) eqn:Hfan; [|done].
    intros [= <-]. split; [done|]. split; [done|]. by left.
  - destruct (path_exists w (SENSE_NITRO ctl)) eqn:Hnitro; [|done].
    destruct (path_exists w (Py.path_join _ _)) eqn:Hfan; [|done].
    intros [= <-]. split; [done|]. split; [done|]. by right.
Qed.

Lemma detect_sense_fan_path_sound_witness :
  detect_sense_fan_path sample_ctl predator_world
  = Some (Py.path_join (SENSE_PRED sample_ctl) (py "fan_speed"))
  /\ path_exists predator_world
       (Py.path_join (SENSE_PRED sample_ctl) (py "fan_speed")) = true.
Proof.
  assert (H : detect_sense_fan_path sample_ctl predator_world
              = Some (Py.path_join (SENSE_PRED sample_ctl) (py "fan_speed")))
    by (vm_compute; reflexivity).
  split; [exact H|].
  exact (proj1 (detect_sense_fan_path_sound _ _ _ H)).
Defined.

(** ** [write_text] and [read_text] *)

Lemma refused_facts (path content : pstr) (w : World) :
  wlog (refused path content w) = (path, content) :: wlog w
  /\ wfault (refused path content w) = wfault w
  /\ rfault (refused path content w) = rfault w
  /\ (forall q, q <> path ->
                nodes (refused path content w) !! q = nodes w !! q).
Proof.
  unfold refused.
  destruct (wkept w path) as [n|]; [|done].
  destruct (nodes w !! path) as [[|old]|]; simpl; try done;
    repeat split; intros q Hq; by rewrite lookup_insert_ne.
Qed.

Lemma refused_dir (path content : pstr) (w : World) :
  nodes w !! path = Some Dir ->
  refused path content w = log_write path content w.
Proof. intros H. unfold refused. rewrite H. by destruct (wkept w path). Qed.

Lemma write_text_cases (path content : pstr) (w : World) :
  (exists e, write_text path content w = (Raise e, refused path content w))
  \/ (write_text path content w
      = (Ok tt, set_nodes (insert path (File (encode_ignore content)))
                  (log_write path content w))
      /\ wfault w path = None
      /\ nodes w !! path <> Some Dir).
Proof.
  unfold write_text.
  destruct (wfault w path) as [e|] eqn:Hf; [eauto|].
  destruct (nodes w !! path) as [[|old]|] eqn:Hn.
  - left. exists (open_error w path). by rewrite (refused_dir _ _ _ Hn).
  - by right.
  - by right.
Qed.

(** X2: after [write_text] succeeds the path exists, the file holds the
    content without its lone surrogates, and [read_text] returns that
    text with carriage returns turned into newlines and stripped, which is
    the stripped content itself when it has neither; a file that was
    missing is created.  When [write_text] raises at [open] no file
    changes; when it raises later the file is left truncated, holding
    only what had been written. *)
Theorem write_then_read (path content : pstr) (w : World) :
  (forall w', write_text path content w = (Ok tt, w') ->
              path_exists w' path = true
              /\ nodes w' !! path = Some (File (encode_ignore content))
              /\ (rfault w path = None ->
                  read_text w' path
                  = Ok (Py.strip (universal_newlines (encode_ignore content)))
                  /\ (Forall (fun c => is_surrogate c = false /\ c <> 13%N)
                        content ->
                      read_text w' path = Ok (Py.strip content))))
  /\ (wfault w path = None -> nodes w !! path = None ->
      exists w', write_text path content w = (Ok tt, w'))
  /\ (forall e w', write_text path content w = (Raise e, w') ->
                   (wkept w path = None -> nodes w' = nodes w)
                   /\ (forall n, wkept w path = Some n ->
                                 wfault w path = Some e ->
                                 nodes w !! path <> Some Dir ->
                                 nodes w' !! path
                                 = Some (File (take n (encode_ignore content))))).
Proof.
  split; [|split].
  - destruct (write_text_cases path content w) as [[e He]|(Hok & _ & _)].
    + by rewrite He.
    + rewrite Hok. intros w' [= <-].
      assert (Hn : nodes (set_nodes (insert path (File (encode_ignore content)))
                            (log_write path content w)) !! path
                   = Some (File (encode_ignore content)))
        by (simpl; by rewrite lookup_insert_eq).
      split; [|split; [exact Hn|]].
      { unfold path_exists. rewrite Hn. by apply bool_decide_eq_true_2. }
      intros Hr.
      assert (Hread : read_text
                        (set_nodes (insert path (File (encode_ignore content)))
                           (log_write path content w)) path
                      = Ok (Py.strip (universal_newlines (encode_ignore content)))).
      { unfold read_text. rewrite Hn. simpl. by rewrite Hr. }
      split; [exact Hread|]. intros Hall. rewrite Hread.
      assert (Henc : encode_ignore content = content).
      { unfold encode_ignore. clear -Hall.
        induction Hall as [|c s [Hc _] Hs IH]; simpl; [done|].
        by rewrite Hc, IH. }
      rewrite Henc, universal_newlines_no_cr; [done|].
      eapply Forall_impl; [exact Hall|]. by intros c [_ ?].
  - intros Hf Hn. unfold write_text. rewrite Hf, Hn. eauto.
  - intros e w' Hw. unfold write_text in Hw.
    destruct (wfault w path) as [e'|] eqn:Hf.
    + injection Hw as <- <-. unfold refused. split.
      * by intros ->.
      * intros n -> _ Hdir.
        destruct (nodes w !! path) as [[|old]|]; simpl;
          [done | by rewrite lookup_insert_eq | by rewrite lookup_insert_eq].
    + destruct (nodes w !! path) as [[|old]|] eqn:Hn; try done.
      injection Hw as <- <-. split; [done|]. by intros n _ [=].
Qed.

Lemma write_then_read_witness :
  write_text (PLATFORM_PROFILE sample_ctl)
    (py "performance" ++ [13; 10; 0xD800]%N) predator_world
  = (Ok tt,
     set_nodes (insert (PLATFORM_PROFILE sample_ctl)
                  (File (py "performance" ++ [13; 10]%N)))
       (log_write (PLATFORM_PROFILE sample_ctl)
          (py "performance" ++ [13; 10; 0xD800]%N) predator_world))
  /\ nodes
       (set_nodes (insert (PLATFORM_PROFILE sample_ctl)
                     (File (py "performance" ++ [13; 10]%N)))
          (log_write (PLATFORM_PROFILE sample_ctl)
             (py "performance" ++ [13; 10; 0xD800]%N) predator_world))
       !! PLATFORM_PROFILE sample_ctl
     = Some (File (encode_ignore (py "performance" ++ [13; 10; 0xD800]%N))).
Proof.
  assert (H : write_text (PLATFORM_PROFILE sample_ctl)
                (py "performance" ++ [13; 10; 0xD800]%N) predator_world
              = (Ok tt,
                 set_nodes (insert (PLATFORM_PROFILE sample_ctl)
                              (File (py "performance" ++ [13; 10]%N)))
                   (log_write (PLATFORM_PROFILE sample_ctl)
                      (py "performance" ++ [13; 10; 0xD800]%N)
                      predator_world))).
  { unfold write_text.
    replace (nodes predator_world !! PLATFORM_PROFILE sample_ctl)
      with (Some (File (py "balanced" ++ nl))) by (vm_compute; reflexivity).
    reflexivity. }
  split; [exact H|].
  exact (proj1 (proj2 (proj1 (write_then_read _ _ _) _ H))).
Defined.

(** ** The footprint of a handler *)

Lemma footprint_failed (path msg : pstr) (w : World) :
  footprint path w (failed msg w).
Proof. unfold footprint, failed. simpl. auto 10. Qed.

Lemma footprint_write (path payload : pstr) (info : pstr) (w : World) :
  footprint path w
    match write_text path payload w with
    | (Ok _, w1) => (Ok tt, set_label (mkLabel info false) w1)
    | (Raise e, w1) => (Ok tt, set_label (error_label e) w1)
    end.
Proof.
  destruct (write_text_cases path payload w) as [[e ->]|(-> & _ & _)];
    unfold footprint; simpl.
  - destruct (refused_facts path payload w) as (Hlog & Hwf & Hrf & Hn).
    repeat split; eauto.
  - repeat split; eauto.
    intros q Hq. by rewrite lookup_insert_ne.
Qed.

(** X3: each handler returns normally whatever happens, calls
    [write_text] at most once and only on its own control file, and leaves
    every other node as it was. *)
Theorem handlers_footprint (ctl : Ctl) (w : World) :
  (forall f, footprint (KB_PER_ZONE ctl) w (apply_static ctl f w))
  /\ (forall f, footprint (KB_FOUR_MODE ctl) w (apply_effect ctl f w))
  /\ (forall f, footprint (PLATFORM_PROFILE ctl) w (apply_profile ctl f w))
  /\ (forall f, footprint (default [] (detect_sense_fan_path ctl w)) w
                  (apply_fans ctl f w)).
Proof.
  split; [|split; [|split]]; intros f.
  - rewrite apply_static_stages.
    destruct (path_exists w _); [|apply footprint_failed].
    destruct (static_payload f); [apply footprint_write | apply footprint_failed].
  - rewrite apply_effect_stages.
    destruct (path_exists w _); [|apply footprint_failed].
    destruct (effect_payload ctl f); [apply footprint_write | apply footprint_failed].
  - rewrite apply_profile_stages.
    destruct (path_exists w _); [|apply footprint_failed].
    destruct (profile_selection f); [apply footprint_write | apply footprint_failed].
  - rewrite apply_fans_stages.
    destruct (detect_sense_fan_path ctl w); [|apply footprint_failed].
    destruct (fan_payload f); [apply footprint_write | apply footprint_failed].
Qed.

(** ** The success message *)

Lemma info_after_write (path payload info : pstr) (w : World) :
  let r := match write_text path payload w with
           | (Ok _, w1) => (Ok tt, set_label (mkLabel info false) w1)
           | (Raise e, w1) => (Ok tt, set_label (error_label e) w1)
           end in
  error_class (label r.2) = false ->
  nodes r.2 !! path = Some (File (encode_ignore payload))
  /\ wlog r.2 = (path, payload) :: wlog w
  /\ text (label r.2) = info.
Proof.
  destruct (write_text_cases path payload w) as [[e ->]|(-> & _ & _)]; simpl.
  - done.
  - intros _. by rewrite lookup_insert_eq.
Qed.

(** X4: a handler leaves the status label without the error class only
    when its payload was built and written: the control file then holds
    exactly that payload (for the profile, the chosen entry and a newline
    as the encoder stores them, without lone surrogates) and the label
    shows the handler's success text. *)
Theorem success_label_means_written (ctl : Ctl) (w : World) :
  (forall f,
      error_class (label (apply_static ctl f w).2) = false ->
      exists p, static_payload f = Ok p
                /\ nodes (apply_static ctl f w).2 !! KB_PER_ZONE ctl
                   = Some (File p)
                /\ text (label (apply_static ctl f w).2)
                   = py "Keyboard static colors applied")
  /\ (forall f,
         error_class (label (apply_effect ctl f w).2) = false ->
         exists p, effect_payload ctl f = Ok p
                   /\ nodes (apply_effect ctl f w).2 !! KB_FOUR_MODE ctl
                      = Some (File p)
                   /\ text (label (apply_effect ctl f w).2)
                      = py "Keyboard effect applied")
  /\ (forall f,
         error_class (label (apply_profile ctl f w).2) = false ->
         exists sel, profile_selection f = Ok sel
                     /\ nodes (apply_profile ctl f w).2 !! PLATFORM_PROFILE ctl
                        = Some (File (encode_ignore (sel ++ nl)))
                     /\ text (label (apply_profile ctl f w).2)
                        = py "Power profile set to " ++ sel)
  /\ (forall f,
         error_class (label (apply_fans ctl f w).2) = false ->
         exists path p, detect_sense_fan_path ctl w = Some path
                        /\ fan_payload f = Ok p
                        /\ nodes (apply_fans ctl f w).2 !! path = Some (File p)
                        /\ text (label (apply_fans ctl f w).2)
                           = py "Fan settings applied").
Proof.
  split; [|split; [|split]]; intros f.
  - rewrite apply_static_stages.
    destruct (path_exists w _); [|done].
    destruct (static_payload f) as [p|e] eqn:Hp; [|done].
    intros (Hn & _ & Ht)%info_after_write.
    rewrite (encode_ignore_id p (static_payload_ascii _ _ Hp)) in Hn. eauto.
  - rewrite apply_effect_stages.
    destruct (path_exists w _); [|done].
    destruct (effect_payload ctl f) as [p|e] eqn:Hp; [|done].
    intros (Hn & _ & Ht)%info_after_write.
    rewrite (encode_ignore_id p (effect_payload_ascii _ _ _ Hp)) in Hn. eauto.
  - rewrite apply_profile_stages.
    destruct (path_exists w _); [|done].
    destruct (profile_selection f) as [p|e]; [|done].
    intros (Hn & _ & Ht)%info_after_write. eauto.
  - rewrite apply_fans_stages.
    destruct (detect_sense_fan_path ctl w) as [path|]; [|done].
    destruct (fan_payload f) as [p|e] eqn:Hp; [|done].
    intros (Hn & _ & Ht)%info_after_write.
    rewrite (encode_ignore_id p (fan_payload_ascii _ _ Hp)) in Hn. eauto 10.
Qed.

Lemma success_label_means_written_witness :
  error_class
    (label (apply_fans sample_ctl (mkFanForm false 40 60) predator_world).2)
  = false
  /\ exists path p,
      detect_sense_fan_path sample_ctl predator_world = Some path
      /\ fan_payload (mkFanForm false 40 60) = Ok p
      /\ nodes (apply_fans sample_ctl (mkFanForm false 40 60) predator_world).2
           !! path = Some (File p)
      /\ text (label (apply_fans sample_ctl (mkFanForm false 40 60)
                        predator_world).2)
         = py "Fan settings applied".
Proof.
  assert (H : error_class
                (label (apply_fans sample_ctl (mkFanForm false 40 60)
                          predator_world).2) = false)
    by (vm_compute; reflexivity).
  split; [exact H|].
  exact (proj2 (proj2 (proj2 (success_label_means_written sample_ctl
                                predator_world))) _ H).
Defined.

(** ** The power page *)

Lemma split_go_tokens (s : pstr) :
  forall tok,
    forallb (fun c => negb (Py.isspace c)) tok = true ->
    Forall is_token (Py.split_go tok s).
Proof.
  induction s as [|c s IH]; intros tok Htok; simpl.
  - destruct tok as [|x tok]; [constructor|].
    constructor; [by split | constructor].
  - destruct (Py.isspace c) eqn:Hc.
    + destruct tok as [|x tok]; [by apply IH|].
      constructor; [by split | by apply IH].
    + apply IH. rewrite forallb_app, Htok. simpl. by rewrite Hc.
Qed.

Lemma split_tokens (s : pstr) : Forall is_token (Py.split s).
Proof. by apply split_go_tokens. Qed.

Lemma default_choices_tokens : Forall is_token default_choices.
Proof. repeat (constructor; [by split|]). constructor. Qed.

Lemma load_choices_cases (ctl : Ctl) (w : World) :
  load_choices ctl w = default_choices
  \/ exists raw, load_choices ctl w = Py.split raw.
Proof.
  unfold load_choices.
  destruct (path_exists w _); [|by left].
  destruct (read_text w _) as [raw|e]; [|by left].
  rewrite filter_all by apply split_tokens_nonempty.
  destruct (Py.split raw) eqn:Hs; [by left|].
  right. exists raw. by rewrite Hs.
Qed.

Lemma load_choices_tokens (ctl : Ctl) (w : World) :
  Forall is_token (load_choices ctl w).
Proof.
  destruct (load_choices_cases ctl w) as [->|[raw ->]].
  - apply default_choices_tokens.
  - apply split_tokens.
Qed.

(** X5: the list of profile choices is never empty, and none of its
    entries is empty or contains white space, whatever the choices file
    holds. *)
Theorem load_choices_nonempty_tokens (ctl : Ctl) (w : World) :
  load_choices ctl w <> [] /\ Forall is_token (load_choices ctl w).
Proof.
  split.
  - unfold load_choices. by repeat case_match.
  - apply load_choices_tokens.
Qed.

Lemma forallb_encode_ignore (P : N -> bool) (s : pstr) :
  forallb P s = true -> forallb P (encode_ignore s) = true.
Proof.
  unfold encode_ignore. induction s as [|c s IH]; simpl; [done|].
  intros [Hc Hs]%andb_true_iff.
  destruct (negb (is_surrogate c)); simpl; [rewrite Hc|]; by apply IH.
Qed.

Lemma stored_line_read_back (c : pstr) :
  forallb (fun x => negb (Py.isspace x)) c = true ->
  Py.strip (universal_newlines (encode_ignore (c ++ nl))) = encode_ignore c.
Proof.
  intros Hc. pose proof (forallb_encode_ignore _ c Hc) as Hc'.
  assert (Happ : encode_ignore (c ++ nl) = encode_ignore c ++ nl).
  { unfold encode_ignore. by rewrite List.filter_app. }
  rewrite Happ, universal_newlines_no_cr.
  - rewrite <- (app_nil_l (encode_ignore c ++ nl)).
    rewrite (strip_spaces [] (encode_ignore c) nl) by done.
    by apply strip_no_space.
  - apply Forall_app. split; [|by repeat constructor].
    apply Forall_forall. intros x Hx%list_elem_of_In.
    rewrite forallb_forall in Hc'. specialize (Hc' x Hx).
    intros ->. discriminate Hc'.
Qed.

(** X6: with the list built by [load_choices], selecting any entry and
    applying never hits the "No profile selected" error; when the profile
    file is writable the handler writes the entry and a newline, stored
    without their lone surrogates, and the profile read back for display
    is the entry without its lone surrogates: the entry itself when it
    has none, as every text read from a file. *)
Theorem apply_profile_round_trip
    (ctl : Ctl) (w : World) (i : nat) (c old : pstr) :
  load_choices ctl w !! i = Some c ->
  nodes w !! PLATFORM_PROFILE ctl = Some (File old) ->
  wfault w (PLATFORM_PROFILE ctl) = None ->
  rfault w (PLATFORM_PROFILE ctl) = None ->
  profile_selection (mkPowerForm (load_choices ctl w) i) = Ok c
  /\ apply_profile ctl (mkPowerForm (load_choices ctl w) i) w
     = (Ok tt,
        set_label (mkLabel (py "Power profile set to " ++ c) false)
          (set_nodes (insert (PLATFORM_PROFILE ctl)
                        (File (encode_ignore (c ++ nl))))
             (log_write (PLATFORM_PROFILE ctl) (c ++ nl) w)))
  /\ current_profile ctl
       (apply_profile ctl (mkPowerForm (load_choices ctl w) i) w).2
     = encode_ignore c
  /\ (encode_ignore c = c ->
      apply_profile ctl (mkPowerForm (load_choices ctl w) i) w
      = written (PLATFORM_PROFILE ctl) (c ++ nl)
          (py "Power profile set to " ++ c) w
      /\ current_profile ctl
           (apply_profile ctl (mkPowerForm (load_choices ctl w) i) w).2 = c).
Proof.
  intros Hi Hn Hwf Hrf.
  assert (Htok : is_token c).
  { pose proof (load_choices_tokens ctl w) as Hall.
    rewrite Forall_forall in Hall. apply Hall.
    by eapply list_elem_of_lookup_2. }
  assert (Hsel : profile_selection (mkPowerForm (load_choices ctl w) i) = Ok c).
  { unfold profile_selection. simpl. rewrite Hi.
    destruct (load_choices ctl w); [done|].
    destruct Htok as [Hne _]. by destruct c. }
  assert (Hrun : apply_profile ctl (mkPowerForm (load_choices ctl w) i) w
                 = (Ok tt,
                    set_label (mkLabel (py "Power profile set to " ++ c) false)
                      (set_nodes (insert (PLATFORM_PROFILE ctl)
                                    (File (encode_ignore (c ++ nl))))
                         (log_write (PLATFORM_PROFILE ctl) (c ++ nl) w)))).
  { rewrite apply_profile_stages.
    rewrite (path_exists_file _ _ _ Hn), Hsel.
    unfold write_text. by rewrite Hwf, Hn. }
  assert (Hback : current_profile ctl
                    (apply_profile ctl (mkPowerForm (load_choices ctl w) i) w).2
                  = encode_ignore c).
  { rewrite Hrun. unfold current_profile, path_exists, read_text. simpl.
    rewrite lookup_insert_eq, Hrf.
    rewrite bool_decide_eq_true_2 by eauto.
    apply stored_line_read_back. by destruct Htok. }
  split; [exact Hsel|]. split; [exact Hrun|]. split; [exact Hback|].
  intros Henc. split; [|by rewrite Hback].
  rewrite Hrun. unfold written. do 4 f_equal.
  assert (Happ : encode_ignore (c ++ nl) = encode_ignore c ++ nl).
  { unfold encode_ignore. by rewrite List.filter_app. }
  by rewrite Happ, Henc.
Qed.

Lemma apply_profile_round_trip_witness :
  load_choices sample_ctl predator_world !! 2 = Some (py "performance")
  /\ current_profile sample_ctl
       (apply_profile sample_ctl
          (mkPowerForm (load_choices sample_ctl predator_world) 2)
          predator_world).2
     = py "performance".
Proof.
  assert (H : load_choices sample_ctl predator_world !! 2
              = Some (py "performance")) by (vm_compute; reflexivity).
  split; [exact H|].
  exact (proj2 (proj2 (proj2 (proj2
           (apply_profile_round_trip sample_ctl predator_world 2
              (py "performance") (py "balanced" ++ nl) H
              ltac:(vm_compute; reflexivity)
              ltac:(reflexivity) ltac:(reflexivity))))
           ltac:(vm_compute; reflexivity))).
Defined.

Lemma list_index_Some (x : pstr) (l : list pstr) (i : nat) :
  list_index x l = Some i ->
  l !! i = Some x /\ forall j, j < i -> l !! j <> Some x.
Proof.
  revert i. induction l as [|y l IH]; simpl; [done|].
  intros i. destruct (decide (y = x)) as [->|Hne].
  - intros [= <-]. split; [done | lia].
  - destruct (list_index x l) as [k|]; simpl; [|done].
    intros [= <-]. destruct (IH k eq_refl) as [Hk Hfirst].
    split; [done|]. intros [|j] Hj; simpl.
    + by intros [= ?].
    + apply Hfirst. lia.
Qed.

Lemma list_index_None (x : pstr) (l : list pstr) :
  list_index x l = None <-> x ∉ l.
Proof.
  induction l as [|y l IH]; simpl.
  - split; [intros _; apply not_elem_of_nil | done].
  - destruct (decide (y = x)) as [->|Hne].
    + split; [done|]. intros H. exfalso. apply H, list_elem_of_here.
    + destruct (list_index x l) as [k|]; simpl.
      * split; [done|]. intros H. exfalso.
        destruct IH as [IH1 IH2].
        assert (Hx : x ∉ l) by (intros Hx; apply H; by apply list_elem_of_further).
        by specialize (IH2 Hx).
      * split; [|done]. intros _.
        apply not_elem_of_cons. split; [done | by apply IH].
Qed.

(** X7: when the power page is built, a position is passed to
    [set_selected] exactly when the current profile is one of the choices,
    and it is then the first position holding the current profile;
    applying at once with that selection writes the current profile
    back. *)
Theorem build_power_page_selection (ctl : Ctl) (w : World) :
  let page := build_power_page ctl w in
  (page_selected page = None <-> current_profile ctl w ∉ page_choices page)
  /\ (forall i,
         page_selected page = Some i ->
         page_choices page !! i = Some (current_profile ctl w)
         /\ (forall j, j < i ->
                       page_choices page !! j <> Some (current_profile ctl w))
         /\ profile_selection (mkPowerForm (page_choices page) i)
            = Ok (current_profile ctl w)).
Proof.
  unfold build_power_page. simpl. split; [apply list_index_None|].
  intros i Hi. apply list_index_Some in Hi as [Hi Hfirst].
  split; [done|]. split; [done|].
  assert (Htok : is_token (current_profile ctl w)).
  { pose proof (load_choices_tokens ctl w) as Hall.
    rewrite Forall_forall in Hall. apply Hall.
    by eapply list_elem_of_lookup_2. }
  unfold profile_selection. simpl. rewrite Hi.
  destruct (load_choices ctl w); [done|].
  destruct Htok as [Hne _]. by destruct (current_profile ctl w).
Qed.

Lemma build_power_page_selection_witness :
  page_selected (build_power_page sample_ctl predator_world) = Some 1
  /\ page_choices (build_power_page sample_ctl predator_world) !! 1
     = Some (py "balanced").
Proof.
  assert (H : page_selected (build_power_page sample_ctl predator_world)
              = Some 1) by (vm_compute; reflexivity).
  split; [exact H|].
  exact (proj1 (proj2 (build_power_page_selection sample_ctl predator_world)
                  1 H)).
Defined.

(** ** Reading a choices file back *)

Lemma split_go_token_prefix (t : pstr) :
  forallb (fun c => negb (Py.isspace c)) t = true ->
  forall tok s, Py.split_go tok (t ++ s) = Py.split_go (tok ++ t) s.
Proof.
  induction t as [|c t IH]; simpl.
  - intros _ tok s. by rewrite app_nil_r.
  - intros [Hc Ht]%andb_true_iff tok s.
    apply negb_true_iff in Hc. rewrite Hc, (IH Ht).
    by rewrite <- app_assoc.
Qed.

Lemma split_join (sep r : pstr) (ts : list pstr) :
  sep <> [] -> forallb Py.isspace sep = true ->
  forallb Py.isspace r = true ->
  Forall is_token ts ->
  Py.split (Py.join sep ts ++ r) = ts.
Proof.
  intros Hsep Hws Hr Hts. unfold Py.split.
  induction Hts as [|t ts [Hne Ht] Hts IH].
  - simpl. by rewrite (split_go_all_space r Hr []).
  - destruct ts as [|t2 ts].
    + simpl. rewrite (split_go_token_prefix t Ht), app_nil_l.
      rewrite (split_go_all_space r Hr t). by destruct t.
    + change (Py.join sep (t :: t2 :: ts))
        with (t ++ sep ++ Py.join sep (t2 :: ts)).
      rewrite <- !app_assoc.
      rewrite (split_go_token_prefix t Ht), app_nil_l.
      destruct sep as [|c sep]; [done|].
      simpl in Hws. apply andb_true_iff in Hws as [Hc Hsep'].
      cbn [app Py.split_go]. rewrite Hc.
      rewrite (split_go_leading_space sep _ Hsep').
      rewrite IH. by destruct t.
Qed.

(** X8: a choices file that holds tokens joined by a white-space
    separator, with any white space after them, is read back as exactly
    those tokens, in order. *)
Theorem load_choices_reads_joined_tokens
    (ctl : Ctl) (w : World) (sep r : pstr) (ts : list pstr) :
  ts <> [] ->
  Forall is_token ts ->
  sep <> [] -> forallb Py.isspace sep = true ->
  forallb Py.isspace r = true ->
  nodes w !! PLATFORM_PROFILE_CHOICES ctl = Some (File (Py.join sep ts ++ r)) ->
  rfault w (PLATFORM_PROFILE_CHOICES ctl) = None ->
  load_choices ctl w = ts.
Proof.
  intros Hne Hts Hsep Hws Hr Hn Hrf.
  unfold load_choices, read_text.
  rewrite (path_exists_file _ _ _ Hn), Hrf, Hn.
  rewrite split_strip, split_universal_newlines.
  rewrite (split_join sep r ts) by done.
  rewrite filter_all.
  - by destruct ts.
  - eapply Forall_impl; [exact Hts|]. by intros t [? _].
Qed.

Lemma load_choices_reads_joined_tokens_witness :
  load_choices sample_ctl
    (world_of [(PLATFORM_PROFILE_CHOICES sample_ctl,
                File (Py.join (py " ") [py "quiet"; py "balanced"; py "quiet"]
                      ++ nl))] no_fault)
  = [py "quiet"; py "balanced"; py "quiet"].
Proof.
  apply (load_choices_reads_joined_tokens sample_ctl _ (py " ") nl).
  - done.
  - repeat (constructor; [by split|]). constructor.
  - done.
  - reflexivity.
  - reflexivity.
  - vm_compute; reflexivity.
  - reflexivity.
Defined.

(** ** More on colour validation *)

(** X9: an accepted colour is canonical: validating the result again, with
    or without a leading [#], gives the same result. *)
Theorem parse_hex_color_canonical (s c : pstr) :
  parse_hex_color s = Ok c ->
  parse_hex_color c = Ok c /\ parse_hex_color (py "#" ++ c) = Ok c.
Proof.
  intros Hc%parse_hex_color_HexColor.
  pose proof (HexColor_hex6 c Hc) as Hh.
  pose proof (lower_HexColor c Hc) as Hl.
  split.
  - rewrite <- Hl at 2. apply (parse_hex_color_valid c false Hh).
  - rewrite <- Hl at 2. apply (parse_hex_color_valid c true Hh).
Qed.

Lemma parse_hex_color_canonical_witness :
  parse_hex_color (py " #FF00aa") = Ok (py "ff00aa")
  /\ parse_hex_color (py "#" ++ py "ff00aa") = Ok (py "ff00aa").
Proof.
  assert (H : parse_hex_color (py " #FF00aa") = Ok (py "ff00aa"))
    by (vm_compute; reflexivity).
  split; [exact H|].
  exact (proj2 (parse_hex_color_canonical _ _ H)).
Defined.

Lemma rstrip_idemp (s : pstr) : Py.rstrip (Py.rstrip s) = Py.rstrip s.
Proof.
  unfold Py.rstrip. by rewrite rev_involutive, lstrip_idemp.
Qed.

Lemma rstrip_cons_no_space (c : N) (s : pstr) :
  Py.isspace c = false -> Py.rstrip (c :: s) = c :: Py.rstrip s.
Proof.
  intros Hc.
  destruct (rstrip_prefix s) as (r & Hr & Hs).
  rewrite Hs at 1.
  change (c :: Py.rstrip s ++ r) with ((c :: Py.rstrip s) ++ r).
  rewrite rstrip_spaces by done.
  unfold Py.rstrip at 1. simpl. rewrite lstrip_app.
  assert (Hid : Py.lstrip (rev (Py.rstrip s)) = rev (Py.rstrip s)).
  { unfold Py.rstrip. by rewrite rev_involutive, lstrip_idemp. }
  rewrite Hid.
  destruct (rev (Py.rstrip s)) as [|x t] eqn:Hrev.
  - simpl. rewrite Hc. simpl.
    apply (f_equal (@rev N)) in Hrev. rewrite rev_involutive in Hrev.
    by rewrite Hrev.
  - rewrite <- Hrev. rewrite <- (rev_involutive (Py.rstrip s)) at 2.
    by rewrite <- rev_unit.
Qed.

Lemma strip_cons_no_space (c : N) (s : pstr) :
  Py.isspace c = false -> Py.strip (c :: s) = c :: Py.rstrip s.
Proof.
  intros Hc. unfold Py.strip. simpl. rewrite Hc.
  by apply rstrip_cons_no_space.
Qed.

(** X10: only one leading [#] is removed, and white space is removed only
    around the whole input: an input that starts with two [#] is rejected
    whatever follows, and so is a valid colour separated from its [#] by
    white space. *)
Theorem parse_hex_color_hash_edges (s l h : pstr) :
  parse_hex_color (py "##" ++ s)
  = Raise (ValueError (py "Use RRGGBB or #RRGGBB"))
  /\ (l <> [] -> forallb Py.isspace l = true -> Spec.is_hex6 h = true ->
      parse_hex_color (py "#" ++ l ++ h)
      = Raise (ValueError (py "Use RRGGBB or #RRGGBB"))).
Proof.
  split.
  - rewrite parse_hex_color_unfold.
    change (py "##" ++ s) with (35%N :: 35%N :: s).
    rewrite strip_cons_no_space by done.
    rewrite rstrip_cons_no_space by done.
    cbn [Spec.strip_hash N.eqb Pos.eqb].
    unfold Spec.is_hex6. cbn [forallb].
    change (Spec.is_hex_digit 35) with false.
    by rewrite andb_false_r.
  - intros Hl Hws Hh. rewrite parse_hex_color_unfold.
    change (py "#" ++ l ++ h) with (35%N :: l ++ h).
    rewrite strip_cons_no_space by done.
    cbn [Spec.strip_hash N.eqb Pos.eqb].
    destruct l as [|c l]; [done|].
    simpl in Hws. apply andb_true_iff in Hws as [Hc _].
    assert (Hnothex : Spec.is_hex_digit c = false).
    { destruct (Spec.is_hex_digit c) eqn:Hx; [|done].
      apply hex_digit_not_space in Hx. congruence. }
    assert (Hkeep : exists t, Py.rstrip ((c :: l) ++ h) = c :: t).
    { apply hex6_forall in Hh as [Hlen Hall].
      destruct (rstrip_prefix ((c :: l) ++ h)) as (r & Hr & Hs).
      destruct (Py.rstrip ((c :: l) ++ h)) as [|x t] eqn:Hrs.
      - exfalso. simpl in Hs.
        assert (Hin : forallb Py.isspace (c :: l ++ h) = true) by (by rewrite Hs).
        simpl in Hin. apply andb_true_iff in Hin as [_ Hin].
        rewrite forallb_app in Hin. apply andb_true_iff in Hin as [_ Hin].
        destruct h as [|y h]; [done|].
        apply Forall_cons in Hall as [Hy _].
        apply hex_digit_not_space in Hy.
        simpl in Hin. by rewrite Hy in Hin.
      - simpl in Hs. injection Hs as -> _. eauto. }
    destruct Hkeep as [t ->].
    unfold Spec.is_hex6. cbn [forallb]. rewrite Hnothex.
    by rewrite andb_false_r.
Qed.

Lemma parse_hex_color_hash_edges_witness :
  parse_hex_color (py "#" ++ py " " ++ py "ff00aa")
  = Raise (ValueError (py "Use RRGGBB or #RRGGBB")).
Proof.
  apply (proj2 (parse_hex_color_hash_edges [] (py " ") (py "ff00aa"))).
  - done.
  - reflexivity.
  - reflexivity.
Defined.

(** ** When the fan payload is refused *)

(** X11: the fan payload is refused exactly when the automatic switch is
    off and one of the two percentages lies outside 0..100, always with
    the same error; with the switch on, the percentages are not looked
    at. *)
Theorem fan_payload_refused_iff (f : FanForm) (e : exn) :
  fan_payload f = Raise e
  <-> auto_active f = false
      /\ ~ ((0 <= cpu_value f <= 100)%Z /\ (0 <= gpu_value f <= 100)%Z)
      /\ e = ValueError (py "Percentages must be 0-100").
Proof.
  unfold fan_payload. destruct (auto_active f).
  - split; [done | by intros [? _]].
  - destruct (negb _) eqn:Hb.
    + apply negb_true_iff in Hb. split.
      * intros [= <-]. split; [done|]. split; [|done]. intros [Hc Hg].
        assert (Ht : ((0 <=? cpu_value f) && (cpu_value f <=? 100)
                      && (0 <=? gpu_value f) && (gpu_value f <=? 100))%Z = true).
        { rewrite !andb_true_iff, !Z.leb_le. lia. }
        congruence.
      * by intros (_ & _ & ->).
    + apply negb_false_iff in Hb.
      rewrite !andb_true_iff, !Z.leb_le in Hb.
      split; [done|]. intros (_ & Hr & _). exfalso. apply Hr. lia.
Qed.

Lemma fan_payload_refused_iff_witness :
  fan_payload (mkFanForm false 40 101)
  = Raise (ValueError (py "Percentages must be 0-100")).
Proof.
  apply (proj2 (fan_payload_refused_iff (mkFanForm false 40 101) _)).
  split; [reflexivity|]. split; [simpl; lia | reflexivity].
Defined.

(** ** Payloads lose nothing *)

Lemma digit_no_sep (c : N) :
  Spec.is_digit c = true -> c <> 44%N /\ c <> 10%N /\ c <> 45%N.
Proof.
  unfold Spec.is_digit. intros [H1 H2]%andb_true_iff.
  apply N.leb_le in H1. lia.
Qed.

Lemma str_no_sep (z : Z) :
  Forall (fun c => c <> 44%N /\ c <> 10%N) (Py.str z).
Proof.
  assert (Hpos : forall n, Forall (fun c => c <> 44%N /\ c <> 10%N) (Py.str_N n)).
  { intros n. destruct (str_N_spec n) as (_ & Hdig & _).
    eapply Forall_impl; [exact Hdig|].
    intros c Hc%digit_no_sep. tauto. }
  destruct z as [|p|p]; simpl; try apply Hpos.
  constructor; [done | apply Hpos].
Qed.

Lemma str_N_inj (m n : N) : Py.str_N m = Py.str_N n -> m = n.
Proof.
  intros H.
  destruct (str_N_spec m) as (_ & _ & Hm & _).
  destruct (str_N_spec n) as (_ & _ & Hn & _).
  rewrite H in Hm. lia.
Qed.

Lemma str_N_head (n : N) : head (Py.str_N n) <> Some 45%N.
Proof.
  destruct (str_N_spec n) as (Hne & Hdig & _).
  destruct (Py.str_N n) as [|c s]; [done|]. simpl.
  apply Forall_cons in Hdig as [Hc%digit_no_sep _]. intros [= ->]. tauto.
Qed.

Lemma str_inj (a b : Z) : Py.str a = Py.str b -> a = b.
Proof.
  destruct a as [|p|p], b as [|q|q]; simpl; intros H;
    try (apply str_N_inj in H; congruence);
    try (injection H as H; apply str_N_inj in H; congruence);
    exfalso.
  - apply (str_N_head 0). by rewrite H.
  - apply (str_N_head (N.pos p)). by rewrite H.
  - apply (str_N_head 0). by rewrite <- H.
  - apply (str_N_head (N.pos q)). by rewrite <- H.
Qed.

Lemma app_sep_inj (sep : N) (a a' x x' : pstr) :
  Forall (fun c => c <> sep) a -> Forall (fun c => c <> sep) a' ->
  a ++ sep :: x = a' ++ sep :: x' -> a = a' /\ x = x'.
Proof.
  intros Ha. revert a'.
  induction Ha as [|c a Hc Ha IH]; intros a' Ha' H.
  - destruct Ha' as [|c' a' Hc' _]; simpl in H.
    + by injection H as ->.
    + injection H as <- _. done.
  - destruct Ha' as [|c' a' Hc' Ha']; simpl in H.
    + injection H as -> _. done.
    + injection H as -> H. destruct (IH a' Ha' H) as [-> ->]. done.
Qed.

Lemma str_no_comma (z : Z) : Forall (fun c => c <> 44%N) (Py.str z).
Proof.
  eapply Forall_impl; [apply str_no_sep|]. by intros c [? _].
Qed.

(** X12: two manual fan settings that give the same payload are the same
    setting: the line written to [fan_speed] determines both
    percentages. *)
Theorem fan_payload_injective (f f' : FanForm) (p : pstr) :
  auto_active f = false -> auto_active f' = false ->
  fan_payload f = Ok p -> fan_payload f' = Ok p ->
  cpu_value f = cpu_value f' /\ gpu_value f = gpu_value f'.
Proof.
  unfold fan_payload. intros -> ->.
  destruct (negb _); [done|]. destruct (negb _); [done|].
  intros [= <-] [= H].
  change (py ",") with [44%N] in H. cbn [app] in H.
  apply app_sep_inj in H as [Hc Hg]; try apply str_no_comma.
  apply app_inv_tail in Hg.
  split; by apply str_inj.
Qed.

Lemma fan_payload_injective_witness :
  fan_payload (mkFanForm false 40 60) = Ok (py "40,60" ++ nl)
  /\ cpu_value (mkFanForm false 40 60) = cpu_value (mkFanForm false 40 60).
Proof.
  assert (H : fan_payload (mkFanForm false 40 60) = Ok (py "40,60" ++ nl))
    by (vm_compute; reflexivity).
  split; [exact H|].
  exact (proj1 (fan_payload_injective (mkFanForm false 40 60)
                  (mkFanForm false 40 60) _ eq_refl eq_refl H H)).
Defined.

Lemma static_payload_denotes
    (f : StaticForm) (z : Spec.ZoneColorSet) (b : Z) :
  static_form_denotes f z b ->
  static_payload f = Ok (Spec.encodeKeyboardStatic z b)
  /\ Forall Spec.HexColor (Spec.expand z).
Proof.
  intros [Hb Hz]. split.
  - unfold static_payload, Spec.encodeKeyboardStatic. rewrite Hb.
    destruct z as [c|c1 c2 c3 c4].
    + destruct Hz as [-> Hc]. rewrite Hc.
      cbn [rbind length Nat.eqb Py.repeat_list app Py.join Spec.expand].
      by rewrite <- !app_assoc.
    + destruct Hz as (-> & t1 & t2 & t3 & t4 & -> & H1 & H2 & H3 & H4).
      cbn [rmap]. rewrite H1, H2, H3, H4.
      cbn [rbind length Nat.eqb negb app Py.join Spec.expand].
      by rewrite <- !app_assoc.
  - destruct z as [c|c1 c2 c3 c4]; simpl.
    + destruct Hz as [_ Hc%parse_hex_color_HexColor].
      repeat (constructor; [assumption|]). constructor.
    + destruct Hz as (_ & t1 & t2 & t3 & t4 & _ & H1%parse_hex_color_HexColor
                      & H2%parse_hex_color_HexColor & H3%parse_hex_color_HexColor
                      & H4%parse_hex_color_HexColor).
      repeat (constructor; [assumption|]). constructor.
Qed.

Lemma HexColor_no_comma (c : pstr) :
  Spec.HexColor c -> Forall (fun x => x <> 44%N) c.
Proof.
  intros [_ Hall]. eapply Forall_impl; [exact Hall|].
  intros x Hx%lower_hex_is_hex. intros ->. discriminate Hx.
Qed.

(** X13: two settings of the static page that give the same payload have
    the same brightness and the same four zone colours. *)
Theorem static_payload_injective
    (f f' : StaticForm) (z z' : Spec.ZoneColorSet) (b b' : Z) :
  static_form_denotes f z b ->
  static_form_denotes f' z' b' ->
  static_payload f = static_payload f' ->
  b = b' /\ Spec.expand z = Spec.expand z'.
Proof.
  intros [Hp Hc]%static_payload_denotes [Hp' Hc']%static_payload_denotes.
  rewrite Hp, Hp'. intros [= Heq]. revert Heq.
  assert (Hshape : forall z0, exists c1 c2 c3 c4,
             Spec.expand z0 = [c1; c2; c3; c4]).
  { intros [c|c1 c2 c3 c4]; simpl; eauto 10. }
  unfold Spec.encodeKeyboardStatic.
  destruct (Hshape z) as (c1 & c2 & c3 & c4 & Hz).
  destruct (Hshape z') as (d1 & d2 & d3 & d4 & Hz').
  rewrite Hz, Hz' in *.
  repeat (apply List.Forall_cons_iff in Hc as [?%HexColor_no_comma Hc]).
  repeat (apply List.Forall_cons_iff in Hc' as [?%HexColor_no_comma Hc']).
  change (py ",") with [44%N]. cbn [app]. intros Heq.
  apply app_sep_inj in Heq as [-> Heq]; [|done..].
  apply app_sep_inj in Heq as [-> Heq]; [|done..].
  apply app_sep_inj in Heq as [-> Heq]; [|done..].
  apply app_sep_inj in Heq as [-> Heq]; [|done..].
  apply app_inv_tail, str_inj in Heq. done.
Qed.

Lemma static_payload_injective_witness :
  static_form_denotes (mkStaticForm true (py "#00AAFF") [] 100)
    (Spec.SingleColor (py "00aaff")) 100
  /\ Spec.expand (Spec.SingleColor (py "00aaff"))
     = Spec.expand (Spec.SingleColor (py "00aaff")).
Proof.
  assert (Hden : static_form_denotes (mkStaticForm true (py "#00AAFF") [] 100)
                   (Spec.SingleColor (py "00aaff")) 100)
    by (vm_compute; repeat split; reflexivity).
  split; [exact Hden|].
  exact (proj2 (static_payload_injective _ _ _ _ _ _ Hden Hden eq_refl)).
Defined.

(** X14: two settings of the effect page that give the same payload have
    the same mode id, speed, brightness and direction, and the same red,
    green and blue values. *)
Theorem effect_payload_injective (ctl : Ctl) (f f' : EffectForm) (p : pstr) :
  effect_payload ctl f = Ok p ->
  effect_payload ctl f' = Ok p ->
  (fun n => dict_get (MODE_NAME_TO_ID ctl) n 0%Z)
    <$> (mode_names ctl !! mode_selected f)
  = (fun n => dict_get (MODE_NAME_TO_ID ctl) n 0%Z)
      <$> (mode_names ctl !! mode_selected f')
  /\ speed_value f = speed_value f'
  /\ bright2_value f = bright2_value f'
  /\ dir_value f = dir_value f'
  /\ effect_rgb f = effect_rgb f'.
Proof.
  unfold effect_payload, effect_payload_named.
  destruct (mode_names ctl !! mode_selected f) as [n|]; [|done].
  destruct (mode_names ctl !! mode_selected f') as [n'|]; [|done].
  destruct (effect_rgb f) as [[[r g] b]|]; [|done].
  destruct (effect_rgb f') as [[[r' g'] b']|]; [|done].
  cbn [rbind]. rewrite !effect_line.
  intros [= <-] [= H]. revert H.
  change (py ",") with [44%N]. cbn [app]. intros H.
  apply app_sep_inj in H as [Hid%str_inj H]; try apply str_no_comma.
  apply app_sep_inj in H as [Hs%str_inj H]; try apply str_no_comma.
  apply app_sep_inj in H as [Hb%str_inj H]; try apply str_no_comma.
  apply app_sep_inj in H as [Hd%str_inj H]; try apply str_no_comma.
  apply app_sep_inj in H as [Hr%str_inj H]; try apply str_no_comma.
  apply app_sep_inj in H as [Hg%str_inj H]; try apply str_no_comma.
  apply app_inv_tail, str_inj in H.
  simpl. by rewrite Hid, Hs, Hb, Hd, Hr, Hg, H.
Qed.

Lemma effect_payload_injective_witness :
  effect_payload sample_ctl (mkEffectForm 3 1 100 2 (py "ff00aa"))
  = Ok (py "3,1,100,2,255,0,170" ++ nl)
  /\ effect_rgb (mkEffectForm 3 1 100 2 (py "ff00aa"))
     = effect_rgb (mkEffectForm 3 1 100 2 (py " #FF00AA")).
Proof.
  assert (H : effect_payload sample_ctl (mkEffectForm 3 1 100 2 (py "ff00aa"))
              = Ok (py "3,1,100,2,255,0,170" ++ nl))
    by (vm_compute; reflexivity).
  assert (H' : effect_payload sample_ctl
                 (mkEffectForm 3 1 100 2 (py " #FF00AA"))
               = Ok (py "3,1,100,2,255,0,170" ++ nl))
    by (vm_compute; reflexivity).
  split; [exact H|].
  exact (proj2 (proj2 (proj2 (proj2
           (effect_payload_injective sample_ctl _ _ _ H H'))))).
Defined.

(** ** The colour entry of the effect page, again *)

Lemma strip_all_spaces (s : pstr) :
  forallb Py.isspace s = true -> Py.strip s = [].
Proof. intros H. unfold Py.strip. by rewrite lstrip_all_spaces. Qed.

(** X15: on the effect page a colour entry made of white space only
    counts as no colour (red, green and blue are 0), and white space
    around a colour entry does not change the result. *)
Theorem effect_rgb_white_space
    (m : nat) (sp b d : Z) (l s r : pstr) :
  forallb Py.isspace l = true ->
  forallb Py.isspace r = true ->
  effect_rgb (mkEffectForm m sp b d l) = Ok (0, 0, 0)%Z
  /\ effect_rgb (mkEffectForm m sp b d (l ++ s ++ r))
     = effect_rgb (mkEffectForm m sp b d s).
Proof.
  intros Hl Hr. unfold effect_rgb. simpl. split.
  - by rewrite strip_all_spaces.
  - by rewrite strip_spaces.
Qed.

Lemma effect_rgb_white_space_witness :
  effect_rgb (mkEffectForm 3 1 100 2 ([9; 32]%N ++ py "ff00aa" ++ nl))
  = effect_rgb (mkEffectForm 3 1 100 2 (py "ff00aa")).
Proof.
  exact (proj2 (effect_rgb_white_space 3 1 100 2 [9; 32]%N (py "ff00aa") nl
                  eq_refl eq_refl)).
Defined.

(** ** The effect page as it is built *)

(** X16: pressing Apply on the effect page as it is built writes the line
    [id,1,100,2,0,0,0], where [id] is the table's id for "wave" when
    "wave" is a mode name and the id of the table's first mode otherwise;
    only an empty mode table makes it fail, with the index error. *)
Theorem initial_effect_payload (ctl : Ctl) :
  (forall id,
      NoDup (dict_keys (MODE_NAME_TO_ID ctl)) ->
      (py "wave", id) ∈ MODE_NAME_TO_ID ctl ->
      effect_payload ctl (initial_effect_form ctl)
      = Ok (Py.str id ++ py ",1,100,2,0,0,0" ++ nl))
  /\ (forall n id rest,
         MODE_NAME_TO_ID ctl = (n, id) :: rest ->
         py "wave" ∉ mode_names ctl ->
         effect_payload ctl (initial_effect_form ctl)
         = Ok (Py.str id ++ py ",1,100,2,0,0,0" ++ nl))
  /\ (MODE_NAME_TO_ID ctl = [] ->
      effect_payload ctl (initial_effect_form ctl)
      = Raise (IndexError (py "list index out of range"))).
Proof.
  split; [|split].
  - intros id Hnd Hin.
    assert (Hkey : py "wave" ∈ mode_names ctl).
    { unfold mode_names, dict_keys. apply list_elem_of_fmap.
      by exists (py "wave", id). }
    destruct (list_index (py "wave") (mode_names ctl)) as [i|] eqn:Hi.
    + apply list_index_Some in Hi as Hi'. destruct Hi' as [Hsel _].
      rewrite (effect_payload_selected ctl _ (py "wave")).
      * unfold effect_payload_named, dict_get.
        rewrite (dict_lookup_NoDup _ _ _ Hnd Hin).
        rewrite effect_rgb_blank by done.
        cbn [default rbind]. by rewrite effect_line.
      * unfold initial_effect_form, initial_mode_selected. simpl.
        by rewrite Hi.
    + by apply list_index_None in Hi.
  - intros n id rest Htab Hnot.
    apply list_index_None in Hnot as Hi.
    rewrite (effect_payload_selected ctl _ n).
    + unfold effect_payload_named, dict_get.
      rewrite effect_rgb_blank by done.
      rewrite Htab. cbn [dict_lookup].
      rewrite decide_True by done.
      cbn [default rbind]. by rewrite effect_line.
    + unfold initial_effect_form, initial_mode_selected. simpl.
      rewrite Hi. unfold mode_names. by rewrite Htab.
  - intros Htab. unfold effect_payload, initial_effect_form, mode_names.
    by rewrite Htab.
Qed.

Lemma initial_effect_payload_witness :
  effect_payload sample_ctl (initial_effect_form sample_ctl)
  = Ok (py "3,1,100,2,0,0,0" ++ nl).
Proof.
  apply (proj1 (initial_effect_payload sample_ctl) 3%Z).
  - compute_done.
  - compute_done.
Defined.

(** ** When the static payload is accepted *)

Lemma rmap_length {A B} (f : A -> result B) (l : list A) (ys : list B) :
  rmap f l = Ok ys -> length ys = length l.
Proof.
  revert ys. induction l as [|x l IH]; simpl; intros ys.
  - by intros [= <-].
  - destruct (f x) as [y|e]; simpl; [|done].
    destruct (rmap f l) as [zs|e]; simpl; [|done].
    intros [= <-]. simpl. by rewrite (IH zs).
Qed.

Lemma rmap_Ok_iff {A B} (f : A -> result B) (l : list A) :
  (exists ys, rmap f l = Ok ys) <-> Forall (fun x => exists y, f x = Ok y) l.
Proof.
  induction l as [|x l IH]; simpl.
  - split; [constructor | eauto].
  - destruct (f x) as [y|e] eqn:Hx; simpl.
    + destruct (rmap f l) as [zs|e] eqn:Hr; simpl.
      * split; [|eauto]. intros _. constructor; [eauto|]. apply IH. eauto.
      * split; [by intros [? ?]|].
        intros [_ Hl]%List.Forall_cons_iff. apply IH in Hl as [? ?]. done.
    + split; [by intros [? ?]|].
      intros [[? ?] _]%List.Forall_cons_iff. congruence.
Qed.

(** X17: only the entries in use are validated.  With the single-colour
    switch on, the static payload is accepted exactly when the single
    entry is a valid colour, whatever the zone entries hold; with the
    switch off and four zone entries, exactly when all four are valid,
    whatever the single entry holds; with another number of zone entries
    it is always refused. *)
Theorem static_payload_accepts_iff (f : StaticForm) :
  (single_active f = true ->
   ((exists p, static_payload f = Ok p)
    <-> exists c, parse_hex_color (single_color_text f) = Ok c))
  /\ (single_active f = false -> length (z_entries_text f) = 4 ->
      ((exists p, static_payload f = Ok p)
       <-> Forall (fun t => exists c, parse_hex_color t = Ok c)
             (z_entries_text f)))
  /\ (single_active f = false -> length (z_entries_text f) <> 4 ->
      exists e, static_payload f = Raise e).
Proof.
  unfold static_payload. split; [|split].
  - intros ->. destruct (parse_hex_color _) as [c|e]; simpl.
    + split; eauto.
    + split; [by intros [? ?] | by intros [? ?]].
  - intros -> Hlen. rewrite <- rmap_Ok_iff.
    destruct (rmap parse_hex_color _) as [cs|e] eqn:Hr; simpl.
    + apply rmap_length in Hr. rewrite Hr, Hlen. simpl. split; eauto.
    + split; [by intros [? ?] | by intros [? ?]].
  - intros -> Hlen.
    destruct (rmap parse_hex_color _) as [cs|e] eqn:Hr; simpl; [|eauto].
    apply rmap_length in Hr. rewrite Hr.
    destruct (length (z_entries_text f) =? 4) eqn:Hb; simpl; [|eauto].
    apply Nat.eqb_eq in Hb. done.
Qed.

Lemma static_payload_accepts_iff_witness :
  exists p, static_payload (mkStaticForm true (py "00aaff") [py "zz"] 100)
            = Ok p.
Proof.
  apply (proj1 (static_payload_accepts_iff
                  (mkStaticForm true (py "00aaff") [py "zz"] 100)) eq_refl).
  exists (py "00aaff"). vm_compute; reflexivity.
Defined.
